(** * drand: the node facade and the client of the randomness beacon

    A shallow embedding of [core/drand.go], [core/client.go] and of the
    configuration code of [main.go].  The facade glues together components
    that live in other packages (kyber, ecies, the beacon handler, the
    key store, the transport); these are represented by interfaces
    (type classes and records of methods) that carry exactly the Go
    signatures the facade relies on.

    Conventions.
    - A Go [error] is a nilable interface value: [option error], [None]
      being [nil].
    - A Go pointer result [*T] is [option T]; a Go pair [(x, err)] is a
      Rocq pair.
    - A [uint64] is a [Z]; the facade never does arithmetic on rounds, the
      wrap-around only shows in the big-endian encoding of the round message.
    - The instance mutex [state] serialises [isDKGDone], [initBeacon] and
      [Stop]; the embedding is sequential, one call at a time.
    - Calls into collaborators are recorded, in program order, in a trace. *)

From Stdlib Require Import ZArith Lia String Ascii List Bool.
From Stdlib.Strings Require Import Byte.
From stdpp Require Import base option list strings gmap.
Import ListNotations.

Local Open Scope string_scope.
Local Open Scope list_scope.
Local Open Scope Z_scope.

Definition bytes : Type := list byte.

(** ** Go errors *)

(** [ErrNoBeaconSaved] is the sentinel of the beacon package, compared by
    identity in [BeaconLoop]; [errors_New] and [fmt_Errorf] are the two
    ways the facade builds errors; [ErrForeign] stands for any other error
    value produced by a collaborator. *)
Inductive error : Type :=
| ErrNoBeaconSaved
| errors_New (msg : string)
| fmt_Errorf (format : string) (cause : error)
| ErrForeign (pkg msg : string).

(** The comparison [err == beacon.ErrNoBeaconSaved]. *)
Definition is_ErrNoBeaconSaved (e : error) : bool :=
  match e with
  | ErrNoBeaconSaved => true
  | _ => false
  end.

(** What a call does: it returns, or the goroutine panics. *)
Inductive outcome (A : Type) : Type :=
| Returns (a : A)
| Panics (msg : string).
Arguments Returns {A} a.
Arguments Panics {A} msg.

(** ** Collaborators outside the facade *)

(** The kyber group [key.G2], the protobuf point conversion and BLS. *)
Class Kyber : Type := {
  Point : Type;
  Scalar : Type;
  ProtoPoint : Type;
  (** [key.G2.Scalar()]: a new scalar. *)
  G2_Scalar : Scalar;
  (** [key.G2.Point().Mul(s, nil)]: the base point times [s]. *)
  G2_Point_Mul : Scalar -> Point;
  (** [key.G2.String()]. *)
  G2_String : string;
  (** [p.MarshalBinary()]. *)
  MarshalBinary : Point -> bytes * option error;
  (** [clientKey := key.G2.Point(); clientKey.UnmarshalBinary(msg)]:
      the point read, and the error. *)
  UnmarshalBinary : bytes -> Point * option error;
  (** [crypto.ProtoToKyberPoint(p)].  The result is an interface value of
      some group; all the facade does with it is the type assertion to
      [kyber.Groupable] and [Group().String()], so the converted point is
      represented by [Some name] when it is groupable with group [name]
      and by [None] when it is not. *)
  ProtoToKyberPoint : option ProtoPoint -> option string * option error;
  (** [bls.Verify(key.Pairing, public, msg, sig)]. *)
  bls_Verify : Point -> bytes -> bytes -> option error
}.

(** The ecies package. [Coins] is the randomness [Encrypt] draws for its
    own ephemeral key. *)
Class Ecies `{Kyber} : Type := {
  ECIES : Type;
  Coins : Type;
  (** [c.GetEphemeral()] of the protobuf message. *)
  Ephemeral : ECIES -> option ProtoPoint;
  (** [ecies.Encrypt(key.G2, ecies.DefaultHash, public, msg)]. *)
  Encrypt : Coins -> Point -> bytes -> option ECIES * option error;
  (** [ecies.Decrypt(key.G2, ecies.DefaultHash, private, cipher)]. *)
  Decrypt : Scalar -> option ECIES -> bytes * option error
}.

(** ** Package key *)

Module key.

Record Identity `{Kyber} : Type := {
  Identity_Key : Point;
  Identity_Addr : string;
  Identity_TLS : bool
}.

(** [Identity] implements [net.Peer]. *)
Definition Address `{Kyber} (i : Identity) : string := Identity_Addr i.

Record Pair `{Kyber} : Type := {
  Pair_Key : Scalar;
  Pair_Public : Identity
}.

Record Group `{Kyber} : Type := {
  Nodes : list Identity;
  Threshold : Z
}.

(** The distributed public key; the client reads its field [Key], the
    group public key. *)
Record DistPublic `{Kyber} : Type := {
  Key : Point
}.

(** The private share produced by the DKG, with its method [Public()]. *)
Class ShareOps `{Kyber} : Type := {
  Share : Type;
  Share_Public : Share -> DistPublic
}.

(** Modelled from the spec: the key store persists the long-term keypair,
    the group descriptor, the private share and the distributed public
    key; [store_fault] is a failure of the file system, which every
    operation then reports. *)
Record Store `{ShareOps} : Type := {
  stored_pair : option Pair;
  stored_share : option Share;
  stored_dist : option DistPublic;
  stored_group : option Group;
  store_fault : option error
}.

Section FileStore.
Context `{ShareOps}.

Definition SaveShare (st : Store) (s : Share) : Store * option error :=
  match store_fault st with
  | Some e => (st, Some e)
  | None =>
      ({| stored_pair := stored_pair st; stored_share := Some s;
          stored_dist := stored_dist st; stored_group := stored_group st;
          store_fault := None |}, None)
  end.

Definition SaveDistPublic (st : Store) (p : DistPublic)
  : Store * option error :=
  match store_fault st with
  | Some e => (st, Some e)
  | None =>
      ({| stored_pair := stored_pair st; stored_share := stored_share st;
          stored_dist := Some p; stored_group := stored_group st;
          store_fault := None |}, None)
  end.

(** A nil group descriptor leaves no group file. *)
Definition SaveGroup (st : Store) (g : option Group)
  : Store * option error :=
  match store_fault st with
  | Some e => (st, Some e)
  | None =>
      ({| stored_pair := stored_pair st; stored_share := stored_share st;
          stored_dist := stored_dist st; stored_group := g;
          store_fault := None |}, None)
  end.

Definition SaveKeyPair (st : Store) (p : Pair) : Store * option error :=
  match store_fault st with
  | Some e => (st, Some e)
  | None =>
      ({| stored_pair := Some p; stored_share := stored_share st;
          stored_dist := stored_dist st; stored_group := stored_group st;
          store_fault := None |}, None)
  end.

Definition load {A : Type} (st : Store) (what : string) (x : option A)
  : option A * option error :=
  match store_fault st with
  | Some e => (None, Some e)
  | None =>
      match x with
      | Some a => (Some a, None)
      | None => (None, Some (ErrForeign "key" what))
      end
  end.

Definition LoadKeyPair (st : Store) := load st "no key pair" (stored_pair st).
Definition LoadGroup (st : Store) := load st "no group" (stored_group st).
Definition LoadShare (st : Store) := load st "no share" (stored_share st).
Definition LoadDistPublic (st : Store) :=
  load st "no distributed public key" (stored_dist st).

End FileStore.

End key.

(** ** Package beacon *)

Module beacon.

Record Beacon : Type := {
  PreviousRand : bytes;
  Round : Z;
  Randomness : bytes
}.

(** One byte of a machine integer. *)
Definition byte_of_Z (z : Z) : byte :=
  match Byte.of_N (Z.to_N (Z.land z 255)) with
  | Some b => b
  | None => x00
  end.

(** Big-endian encoding of a [uint64]. *)
Definition BE_u64 (round : Z) : bytes :=
  let r := round mod 2 ^ 64 in
  map (fun i => byte_of_Z (Z.shiftr r (8 * i))) [7; 6; 5; 4; 3; 2; 1; 0].

(** Modelled from the spec: [beacon.Message], the round message
    [M(round, prev) := BE_u64(round) || prev]; the function is in the
    beacon package. *)
Definition Message (prevRand : bytes) (round : Z) : bytes :=
  BE_u64 round ++ prevRand.

(** Modelled from the spec: the beacon store, an ordered log of finalized
    beacons keyed by round; [fault] is a failure of the underlying
    database, reported by every read. *)
Record Store : Type := {
  beacons : list Beacon;
  fault : option error
}.

(** The beacon of the log with the greatest round. *)
Fixpoint latest (l : list Beacon) : option Beacon :=
  match l with
  | [] => None
  | b :: l' =>
      match latest l' with
      | None => Some b
      | Some b' => if Round b' <? Round b then Some b else Some b'
      end
  end.

(** Modelled from the spec: [last()] is the latest beacon by round, or
    the no-beacon error when the store is empty. *)
Definition Last (s : Store) : option Beacon * option error :=
  match fault s with
  | Some e => (None, Some e)
  | None =>
      match latest (beacons s) with
      | None => (None, Some ErrNoBeaconSaved)
      | Some b => (Some b, None)
      end
  end.

(** The threshold-signing handler, as [beacon.NewHandler] builds it; it
    works on the store the facade holds. *)
Record Handler `{key.ShareOps} : Type := {
  handler_priv : key.Pair;
  handler_share : option key.Share;
  handler_group : option key.Group
}.

Definition NewHandler `{key.ShareOps} (priv : key.Pair)
    (share : option key.Share) (group : option key.Group) : Handler :=
  {| handler_priv := priv; handler_share := share; handler_group := group |}.

(** What the facade delegates to: [ProcessBeacon] of the handler, which
    reads the store it shares with the facade. *)
Class HandlerOps `{key.ShareOps} : Type := {
  BeaconRequest : Type;
  BeaconResponse : Type;
  ProcessBeacon :
    Handler -> option Store -> option BeaconRequest ->
    option BeaconResponse * option error
}.

End beacon.

(** ** The protobuf messages *)

Module pb.

Record PublicRandResponse : Type := {
  Previous : bytes;
  Round : Z;
  Randomness : bytes
}.

(** The generated getters accept a nil message. *)
Definition GetPrevious (r : option PublicRandResponse) : bytes :=
  match r with Some m => Previous m | None => [] end.
Definition GetRound (r : option PublicRandResponse) : Z :=
  match r with Some m => Round m | None => 0 end.
Definition GetRandomness (r : option PublicRandResponse) : bytes :=
  match r with Some m => Randomness m | None => [] end.

Record PrivateRandRequest `{Ecies} : Type := {
  Request : option ECIES
}.

Record PrivateRandResponse `{Ecies} : Type := {
  Response : option ECIES
}.

Definition GetRequest `{Ecies} (r : option PrivateRandRequest)
  : option ECIES :=
  match r with Some m => Request m | None => None end.
Definition GetResponse `{Ecies} (r : option PrivateRandResponse)
  : option ECIES :=
  match r with Some m => Response m | None => None end.
Definition GetEphemeral `{Ecies} (c : option ECIES) : option ProtoPoint :=
  match c with Some m => Ephemeral m | None => None end.

(** The packets of the DKG sub-protocol are opaque to the facade. *)
Definition DKGPacket : Type := bytes.

Record DKGResponse : Type := { }.

End pb.

(** ** Package core: configuration *)

Module config.

(** The fields of [core.Config] that the facade and [main.go] read or
    set.  The gRPC options, the bolt options and the beacon callback are
    opaque to both and are left out. *)
Record Config : Type := {
  configFolder : string;
  dbFolder : string;
  listenAddr : string;
  beaconPeriod : Z;
  dkgTimeout : Z;
  insecure : bool;
  certPath : string;
  keyPath : string;
  certmanager : list string
}.

(** The options [contextToConfig] builds. *)
Inductive ConfigOption : Type :=
| WithListenAddress (addr : string)
| WithConfigFolder (folder : string)
| WithDbFolder (folder : string)
| WithBeaconPeriod (period : Z)
| WithInsecure
| WithTLS (cert key : string)
| WithTrustedCerts (paths : list string).

Definition apply_option (c : Config) (o : ConfigOption) : Config :=
  match o with
  | WithListenAddress a =>
      {| configFolder := configFolder c; dbFolder := dbFolder c;
         listenAddr := a; beaconPeriod := beaconPeriod c;
         dkgTimeout := dkgTimeout c; insecure := insecure c;
         certPath := certPath c; keyPath := keyPath c;
         certmanager := certmanager c |}
  | WithConfigFolder f =>
      {| configFolder := f; dbFolder := dbFolder c;
         listenAddr := listenAddr c; beaconPeriod := beaconPeriod c;
         dkgTimeout := dkgTimeout c; insecure := insecure c;
         certPath := certPath c; keyPath := keyPath c;
         certmanager := certmanager c |}
  | WithDbFolder f =>
      {| configFolder := configFolder c; dbFolder := f;
         listenAddr := listenAddr c; beaconPeriod := beaconPeriod c;
         dkgTimeout := dkgTimeout c; insecure := insecure c;
         certPath := certPath c; keyPath := keyPath c;
         certmanager := certmanager c |}
  | WithBeaconPeriod p =>
      {| configFolder := configFolder c; dbFolder := dbFolder c;
         listenAddr := listenAddr c; beaconPeriod := p;
         dkgTimeout := dkgTimeout c; insecure := insecure c;
         certPath := certPath c; keyPath := keyPath c;
         certmanager := certmanager c |}
  | WithInsecure =>
      {| configFolder := configFolder c; dbFolder := dbFolder c;
         listenAddr := listenAddr c; beaconPeriod := beaconPeriod c;
         dkgTimeout := dkgTimeout c; insecure := true;
         certPath := certPath c; keyPath := keyPath c;
         certmanager := certmanager c |}
  | WithTLS cert k =>
      {| configFolder := configFolder c; dbFolder := dbFolder c;
         listenAddr := listenAddr c; beaconPeriod := beaconPeriod c;
         dkgTimeout := dkgTimeout c; insecure := insecure c;
         certPath := cert; keyPath := k;
         certmanager := certmanager c |}
  | WithTrustedCerts paths =>
      {| configFolder := configFolder c; dbFolder := dbFolder c;
         listenAddr := listenAddr c; beaconPeriod := beaconPeriod c;
         dkgTimeout := dkgTimeout c; insecure := insecure c;
         certPath := certPath c; keyPath := keyPath c;
         certmanager := certmanager c ++ paths |}
  end.

(** [core.NewConfig(opts...)]: the options applied, in order, to the
    default configuration [d].  The file [core/config.go] is not among the
    sources: each option is taken to set the field its name says, as
    [initDrand] and [initBeacon] read them, and [NewConfig] is taken to
    return. *)
Definition NewConfig (d : Config) (opts : list ConfigOption) : Config :=
  fold_left apply_option opts d.

Definition ConfigFolder (c : Config) : string := configFolder c.
Definition DBFolder (c : Config) : string := dbFolder c.

(** The listening address: the identity's address unless an option set
    another one. *)
Definition ListenAddress (c : Config) (default : string) : string :=
  if String.eqb (listenAddr c) "" then default else listenAddr c.

End config.

(** ** Package core: the node facade, [core/drand.go] *)

Module core.
Section Facade.
Context {K : Kyber} {SO : @key.ShareOps K} {E : @Ecies K}
        {BO : @beacon.HandlerOps K SO}.

(** The calls the facade makes into its collaborators. *)
Inductive Event : Type :=
| EvGatewayStart (listen : string)
| EvGatewayStop
| EvDkgStart
| EvDkgProcess (packet : pb.DKGPacket)
| EvSaveShare (s : key.Share)
| EvSaveDistPublic (p : key.DistPublic)
| EvSaveGroup (g : option key.Group)
| EvCreateSecureFolder (path : string)
| EvNewBoltStore (path : string)
| EvNewHandler
| EvProcessBeacon (req : option beacon.BeaconRequest)
| EvLoop (seed : bytes) (period : Z) (catchup : bool)
| EvBeaconStop.

(** [dkg.Handler], as [dkg.NewHandler] is given it. *)
Record DkgHandler : Type := {
  dkg_priv : key.Pair;
  dkg_group : key.Group;
  dkg_timeout : Z
}.

(** The struct [Drand].  The gateway is running from [initDrand] on and
    shows in the trace only; [trace] is the history of the calls made. *)
Record Drand : Type := {
  opts : config.Config;
  priv : key.Pair;
  group : option key.Group;
  store : key.Store;
  dkg : option DkgHandler;
  beacon : option beacon.Handler;
  beaconStore : option beacon.Store;
  share : option key.Share;
  pub : option key.DistPublic;
  dkgDone : bool;
  trace : list Event
}.

Definition set_group (g : option key.Group) (d : Drand) : Drand :=
  {| opts := opts d; priv := priv d; group := g; store := store d;
     dkg := dkg d; beacon := beacon d; beaconStore := beaconStore d;
     share := share d; pub := pub d; dkgDone := dkgDone d;
     trace := trace d |}.

Definition set_store (s : key.Store) (d : Drand) : Drand :=
  {| opts := opts d; priv := priv d; group := group d; store := s;
     dkg := dkg d; beacon := beacon d; beaconStore := beaconStore d;
     share := share d; pub := pub d; dkgDone := dkgDone d;
     trace := trace d |}.

Definition set_dkg (h : option DkgHandler) (d : Drand) : Drand :=
  {| opts := opts d; priv := priv d; group := group d; store := store d;
     dkg := h; beacon := beacon d; beaconStore := beaconStore d;
     share := share d; pub := pub d; dkgDone := dkgDone d;
     trace := trace d |}.

Definition set_beacon (h : option beacon.Handler) (d : Drand) : Drand :=
  {| opts := opts d; priv := priv d; group := group d; store := store d;
     dkg := dkg d; beacon := h; beaconStore := beaconStore d;
     share := share d; pub := pub d; dkgDone := dkgDone d;
     trace := trace d |}.

Definition set_beaconStore (s : option beacon.Store) (d : Drand) : Drand :=
  {| opts := opts d; priv := priv d; group := group d; store := store d;
     dkg := dkg d; beacon := beacon d; beaconStore := s;
     share := share d; pub := pub d; dkgDone := dkgDone d;
     trace := trace d |}.

Definition set_share (s : option key.Share) (d : Drand) : Drand :=
  {| opts := opts d; priv := priv d; group := group d; store := store d;
     dkg := dkg d; beacon := beacon d; beaconStore := beaconStore d;
     share := s; pub := pub d; dkgDone := dkgDone d;
     trace := trace d |}.

Definition set_pub (p : option key.DistPublic) (d : Drand) : Drand :=
  {| opts := opts d; priv := priv d; group := group d; store := store d;
     dkg := dkg d; beacon := beacon d; beaconStore := beaconStore d;
     share := share d; pub := p; dkgDone := dkgDone d;
     trace := trace d |}.

Definition set_dkgDone (b : bool) (d : Drand) : Drand :=
  {| opts := opts d; priv := priv d; group := group d; store := store d;
     dkg := dkg d; beacon := beacon d; beaconStore := beaconStore d;
     share := share d; pub := pub d; dkgDone := b;
     trace := trace d |}.

(** The call [e] is made: it is appended to the history. *)
Definition emit (e : Event) (d : Drand) : Drand :=
  {| opts := opts d; priv := priv d; group := group d; store := store d;
     dkg := dkg d; beacon := beacon d; beaconStore := beaconStore d;
     share := share d; pub := pub d; dkgDone := dkgDone d;
     trace := trace d ++ [e] |}.

(** *** Construction *)

(** [initDrand]: the configuration check, the key pair, the gateway,
    which is started at once on the new instance. *)
Definition initDrand (s : key.Store) (c : config.Config)
  : outcome (option Drand * option error) :=
  if negb (config.insecure c)
     && (String.eqb (config.certPath c) "" || String.eqb (config.keyPath c) "")
  then Returns (None, Some (errors_New
    "config: need to set WithInsecure if no certificate and private key path given"))
  else
    match key.LoadKeyPair s with
    | (_, Some err) => Returns (None, Some err)
    | (None, None) => Panics "nil pointer dereference"
    | (Some p, None) =>
        let a := config.ListenAddress c (key.Address (key.Pair_Public p)) in
        Returns
          (Some {| opts := c; priv := p; group := None; store := s;
                   dkg := None; beacon := None; beaconStore := None;
                   share := None; pub := None; dkgDone := false;
                   trace := [EvGatewayStart a] |}, None)
    end.

(** [NewDrand]; [nh] is the error of [dkg.NewHandler], which yields no
    handler when it fails.  The instance is returned with the error. *)
Definition NewDrand (s : key.Store) (g : key.Group) (c : config.Config)
    (nh : option error) : outcome (option Drand * option error) :=
  match initDrand s c with
  | Panics m => Panics m
  | Returns (_, Some err) => Returns (None, Some err)
  | Returns (None, None) => Panics "nil pointer dereference"
  | Returns (Some d, None) =>
      let h := match nh with
               | Some _ => None
               | None => Some {| dkg_priv := priv d; dkg_group := g;
                                 dkg_timeout := config.dkgTimeout (opts d) |}
               end in
      Returns (Some (set_group (Some g) (set_dkg h d)), nh)
  end.

(** *** The DKG-done gate and the beacon *)

Definition isDKGDone (d : Drand) : bool := dkgDone d.

(** [initBeacon]; [bolt] is what [beacon.NewBoltStore] returns. *)
Definition initBeacon (bolt : beacon.Store * option error) (d : Drand)
  : Drand * option error :=
  let d := set_dkgDone true d in
  let d := emit (EvCreateSecureFolder (config.DBFolder (opts d))) d in
  let d := emit (EvNewBoltStore (config.dbFolder (opts d))) d in
  match bolt with
  | (_, Some err) => (d, Some err)
  | (st, None) =>
      let d := set_beaconStore (Some st) d in
      let d := emit EvNewHandler d in
      let d := set_beacon
                 (Some (beacon.NewHandler (priv d) (share d) (group d))) d in
      (d, None)
  end.

(** [LoadDrand]: an instance restored after a DKG. *)
Definition LoadDrand (s : key.Store) (c : config.Config)
    (bolt : beacon.Store * option error)
  : outcome (option Drand * option error) :=
  match initDrand s c with
  | Panics m => Panics m
  | Returns (_, Some err) => Returns (None, Some err)
  | Returns (None, None) => Panics "nil pointer dereference"
  | Returns (Some d, None) =>
      match key.LoadGroup s with
      | (_, Some err) => Returns (None, Some err)
      | (g, None) =>
          let d := set_group g d in
          match key.LoadShare s with
          | (_, Some err) => Returns (None, Some err)
          | (sh, None) =>
              let d := set_share sh d in
              match key.LoadDistPublic s with
              | (_, Some err) => Returns (None, Some err)
              | (p, None) =>
                  let d := set_pub p d in
                  match initBeacon bolt d with
                  | (_, Some err) => Returns (None, Some err)
                  | (d, None) => Returns (Some d, None)
                  end
              end
          end
      end
  end.

(** What the select of [WaitDKG] receives: a share on the first channel
    or a value of type [error] on the second. *)
Inductive DkgResult : Type :=
| ShareReady (s : key.Share)
| DkgFailed (err : option error).

(** [WaitDKG].  The errors of the three saves are dropped, as in the
    source.  Every method of a nil handler, and [Public()] of a nil
    share, dereferences nil. *)
Definition WaitDKG (r : DkgResult) (bolt : beacon.Store * option error)
    (d : Drand) : outcome (option error * Drand) :=
  match dkg d with
  | None => Panics "nil pointer dereference"
  | Some _ =>
      let '(d, err) :=
        match r with
        | ShareReady s => (set_share (Some s) d, None)
        | DkgFailed e => (d, e)
        end in
      match err with
      | Some e => Returns (Some e, d)
      | None =>
          match share d with
          | None => Panics "nil pointer dereference"
          | Some s =>
              let d := emit (EvSaveShare s) d in
              let d := set_store (fst (key.SaveShare (store d) s)) d in
              let p := key.Share_Public s in
              let d := emit (EvSaveDistPublic p) d in
              let d := set_store (fst (key.SaveDistPublic (store d) p)) d in
              let d := emit (EvSaveGroup (group d)) d in
              let d := set_store (fst (key.SaveGroup (store d) (group d))) d in
              let '(d, e) := initBeacon bolt d in
              Returns (e, d)
          end
      end
  end.

(** [StartDKG]. *)
Definition StartDKG (r : DkgResult) (bolt : beacon.Store * option error)
    (d : Drand) : outcome (option error * Drand) :=
  match dkg d with
  | None => Panics "nil pointer dereference"
  | Some _ => WaitDKG r bolt (emit EvDkgStart d)
  end.

(** *** The beacon loop *)

Definition DefaultSeed : bytes :=
  list_byte_of_string
    "Truth is like the sun. You can shut it out for a time, but it ain't goin' away.".

(** [BeaconLoop].  [Loop] runs until the handler is stopped; the call is
    recorded with its three arguments. *)
Definition BeaconLoop (d : Drand) : outcome Drand :=
  match beaconStore d with
  | None => Panics "nil pointer dereference"
  | Some st =>
      let catchup := true in
      let '(b, err) := beacon.Last st in
      let proceed (catchup : bool) : outcome Drand :=
        match beacon d with
        | None => Panics "nil pointer dereference"
        | Some _ =>
            Returns (emit (EvLoop DefaultSeed (config.beaconPeriod (opts d))
                             catchup) d)
        end in
      match err with
      | Some e =>
          if is_ErrNoBeaconSaved e
          then proceed false
          else Returns d
      | None => proceed catchup
      end
  end.

(** *** The RPC handlers *)

(** [Public]. *)
Definition Public (d : Drand)
  : outcome (option pb.PublicRandResponse * option error) :=
  match beaconStore d with
  | None => Panics "nil pointer dereference"
  | Some st =>
      match beacon.Last st with
      | (_, Some err) =>
          Returns (None, Some (fmt_Errorf "can't retrieve beacon: %s" err))
      | (None, None) => Panics "nil pointer dereference"
      | (Some b, None) =>
          Returns (Some {| pb.Previous := beacon.PreviousRand b;
                           pb.Round := beacon.Round b;
                           pb.Randomness := beacon.Randomness b |}, None)
      end
  end.

(** [rand.Read(randomness[:])] on the 32-byte array: [delivered] are the
    bytes the system source yields, of which at most 32 are stored. *)
Definition rand_Read (delivered : bytes) (err : option error)
  : bytes * Z * option error :=
  (resize 32 x00 delivered, Z.of_nat (length (take 32 delivered)), err).

(** [Private]: the server side of the private randomness exchange. *)
Definition Private (d : Drand) (req : option pb.PrivateRandRequest)
    (delivered : bytes) (rerr : option error) (coins : Coins)
  : option pb.PrivateRandResponse * option error :=
  let protoPoint := pb.GetEphemeral (pb.GetRequest req) in
  match ProtoToKyberPoint protoPoint with
  | (_, Some err) => (None, Some err)
  | (None, None) =>
      (None, Some (errors_New "point is not on a registered curve"))
  | (Some name, None) =>
      if negb (String.eqb name G2_String)
      then (None, Some (errors_New "point is not on the supported curve"))
      else
        match Decrypt (key.Pair_Key (priv d)) (pb.GetRequest req) with
        | (_, Some _) => (None, Some (errors_New "invalid ECIES request"))
        | (msg, None) =>
            match UnmarshalBinary msg with
            | (_, Some _) => (None, Some (errors_New "invalid client key"))
            | (clientKey, None) =>
                match rand_Read delivered rerr with
                | (_, _, Some _) =>
                    (None, Some (errors_New "error gathering randomness"))
                | (randomness, n, None) =>
                    if negb (n =? 32)
                    then (None,
                          Some (errors_New "error gathering randomness"))
                    else
                      let '(obj, err) := Encrypt coins clientKey randomness in
                      (Some {| pb.Response := obj |}, err)
                end
            end
        end
  end.

(** [Setup]. *)
Definition Setup (d : Drand) (packet : pb.DKGPacket)
  : outcome (option pb.DKGResponse * option error * Drand) :=
  if isDKGDone d
  then Returns (None, Some (errors_New "drand: dkg finished already"), d)
  else
    match dkg d with
    | None => Panics "nil pointer dereference"
    | Some _ =>
        Returns (Some pb.Build_DKGResponse, None,
                 emit (EvDkgProcess packet) d)
    end.

(** [NewBeacon]. *)
Definition NewBeacon (d : Drand) (req : option beacon.BeaconRequest)
  : outcome (option beacon.BeaconResponse * option error * Drand) :=
  if negb (isDKGDone d)
  then Returns (None, Some (errors_New "drand: dkg not finished"), d)
  else
    match beacon d with
    | None =>
        Panics "that's not ever should happen so I'm panicking right now"
    | Some h =>
        Returns (beacon.ProcessBeacon h (beaconStore d) req,
                 emit (EvProcessBeacon req) d)
    end.

(** [Stop]. *)
Definition Stop (d : Drand) : Drand :=
  let d := emit EvGatewayStop d in
  match beacon d with
  | Some _ => emit EvBeaconStop d
  | None => d
  end.

(** *** Histories of calls *)

(** The calls an instance receives, from the commands and from the
    gateway, each with what the collaborators answer during it. *)
Inductive Call : Type :=
| CallStartDKG (r : DkgResult) (bolt : beacon.Store * option error)
| CallWaitDKG (r : DkgResult) (bolt : beacon.Store * option error)
| CallBeaconLoop
| CallPublic
| CallPrivate (req : option pb.PrivateRandRequest) (delivered : bytes)
    (rerr : option error) (coins : Coins)
| CallSetup (packet : pb.DKGPacket)
| CallNewBeacon (req : option beacon.BeaconRequest)
| CallStop.

(** The instance after a call, unless the call panics. *)
Definition call (c : Call) (d : Drand) : outcome Drand :=
  match c with
  | CallStartDKG r bolt =>
      match StartDKG r bolt d with
      | Returns (_, d') => Returns d'
      | Panics m => Panics m
      end
  | CallWaitDKG r bolt =>
      match WaitDKG r bolt d with
      | Returns (_, d') => Returns d'
      | Panics m => Panics m
      end
  | CallBeaconLoop => BeaconLoop d
  | CallPublic =>
      match Public d with
      | Returns _ => Returns d
      | Panics m => Panics m
      end
  | CallPrivate _ _ _ _ => Returns d
  | CallSetup packet =>
      match Setup d packet with
      | Returns (_, d') => Returns d'
      | Panics m => Panics m
      end
  | CallNewBeacon req =>
      match NewBeacon d req with
      | Returns (_, d') => Returns d'
      | Panics m => Panics m
      end
  | CallStop => Returns (Stop d)
  end.

Fixpoint run (cs : list Call) (d : Drand) : outcome Drand :=
  match cs with
  | [] => Returns d
  | c :: cs' =>
      match call c d with
      | Returns d' => run cs' d'
      | Panics m => Panics m
      end
  end.

(** The instances in use: built by [NewDrand] or [LoadDrand] without
    error, then driven by calls. *)
Inductive reachable : Drand -> Prop :=
| reachable_new s g c d :
    NewDrand s g c None = Returns (Some d, None) -> reachable d
| reachable_load s c bolt d :
    LoadDrand s c bolt = Returns (Some d, None) -> reachable d
| reachable_call d c d' :
    reachable d -> call c d = Returns d' -> reachable d'.

(** The handler and the store of an instance are set together. *)
Definition equipped (d : Drand) : Prop :=
  beacon d = None <-> beaconStore d = None.

End Facade.
End core.

(** ** Package core: the client, [core/client.go] *)

Module client.
Section Client.
Context {K : Kyber} {E : @Ecies K}.

(** [net.Peer]: what [peerAddr] and [key.Identity] both implement. *)
Record Peer : Type := {
  peer_Address : string;
  peer_IsTLS : bool
}.

Record peerAddr : Type := {
  addr : string;
  t : bool
}.

Definition peerAddr_Peer (p : peerAddr) : Peer :=
  {| peer_Address := addr p; peer_IsTLS := t p |}.

Definition Identity_Peer (id : key.Identity) : Peer :=
  {| peer_Address := key.Identity_Addr id; peer_IsTLS := key.Identity_TLS id |}.

(** The interface [net.ExternalClient]. *)
Record ExternalClient : Type := {
  ec_Public : Peer -> option pb.PublicRandResponse * option error;
  ec_Private :
    Peer -> option pb.PrivateRandRequest ->
    option pb.PrivateRandResponse * option error
}.

Record Client : Type := {
  client : ExternalClient;
  public : option key.DistPublic
}.

(** [verify]. *)
Definition verify (public : Point) (resp : option pb.PublicRandResponse)
  : option error :=
  let msg := beacon.Message (pb.GetPrevious resp) (pb.GetRound resp) in
  bls_Verify public msg (pb.GetRandomness resp).

(** [LastPublic]. *)
Definition LastPublic (c : Client) (addr : string)
    (pub : option key.DistPublic) (secure : bool)
  : outcome (option pb.PublicRandResponse * option error) :=
  match ec_Public (client c)
          (peerAddr_Peer {| addr := addr; t := secure |}) with
  | (_, Some err) => Returns (None, Some err)
  | (resp, None) =>
      match pub with
      | None => Panics "nil pointer dereference"
      | Some p => Returns (resp, verify (key.Key p) resp)
      end
  end.

(** [Private]: the client side of the private randomness exchange;
    [coins] is the randomness of the encryption. *)
Definition Private (c : Client) (id : key.Identity) (coins : Coins)
  : bytes * option error :=
  let ephScalar := G2_Scalar in
  let ephPoint := G2_Point_Mul ephScalar in
  match MarshalBinary ephPoint with
  | (_, Some err) => ([], Some err)
  | (ephBuff, None) =>
      match Encrypt coins (key.Identity_Key id) ephBuff with
      | (_, Some err) => ([], Some err)
      | (obj, None) =>
          match ec_Private (client c) (Identity_Peer id)
                  (Some {| pb.Request := obj |}) with
          | (_, Some err) => ([], Some err)
          | (resp, None) => Decrypt ephScalar (pb.GetResponse resp)
          end
      end
  end.

End Client.
End client.

(** ** The command line, [main.go] *)

Module main.

(** A flag of the command line: its value, the default one unless the
    flag was given, and whether it was given. *)
Inductive FlagValue : Type :=
| VString (s : string)
| VBool (b : bool)
| VDuration (d : Z)
| VInt (n : Z).

Record Flag : Type := {
  value : FlagValue;
  isSet : bool
}.

(** [cli.Context]: the flags of the command and the global ones. *)
Record Context : Type := {
  flags : gmap string Flag;
  globalFlags : gmap string Flag;
  args : list string
}.

Definition lookup_string (m : gmap string Flag) (name : string) : string :=
  match m !! name with
  | Some {| value := VString s |} => s
  | _ => ""
  end.

Definition String (c : Context) (name : string) : string :=
  lookup_string (flags c) name.

Definition GlobalString (c : Context) (name : string) : string :=
  lookup_string (globalFlags c) name.

Definition Bool (c : Context) (name : string) : bool :=
  match flags c !! name with
  | Some {| value := VBool b |} => b
  | _ => false
  end.

Definition Duration (c : Context) (name : string) : Z :=
  match flags c !! name with
  | Some {| value := VDuration d |} => d
  | _ => 0
  end.

Definition IsSet (c : Context) (name : string) : bool :=
  match flags c !! name with
  | Some f => isSet f
  | None => false
  end.

(** The operating system, as [contextToConfig] uses it. *)
Class Os : Type := {
  path_Join : string -> string -> string;
  fs_Files : string -> list string * option error
}.

Section Commands.
Context {O : Os}.

(** [contextToConfig]; [default] is the configuration [core.NewConfig]
    starts from. *)
Definition contextToConfig (default : config.Config) (c : Context)
  : outcome config.Config :=
  let opts : list config.ConfigOption := [] in
  let listen := String c "listen" in
  let opts := if negb (String.eqb listen "")
              then opts ++ [config.WithListenAddress listen]
              else opts in
  let config := GlobalString c "config" in
  let opts := opts ++ [config.WithConfigFolder config] in
  let db := path_Join config (GlobalString c "db") in
  let opts := opts ++ [config.WithDbFolder db] in
  let period := Duration c "period" in
  let opts := opts ++ [config.WithBeaconPeriod period] in
  (* the second test of "certs-dir" in the source builds an option and
     drops it *)
  let step (opts : list config.ConfigOption) : outcome config.Config :=
    if IsSet c "certs-dir"
    then
      match fs_Files (String c "certs-dir") with
      | (_, Some _) => Panics "certs-dir"
      | (paths, None) =>
          Returns (config.NewConfig default
                     (opts ++ [config.WithTrustedCerts paths]))
      end
    else Returns (config.NewConfig default opts) in
  if Bool c "insecure"
  then
    let opts := opts ++ [config.WithInsecure] in
    if IsSet c "tls-cert" || IsSet c "tls-key"
    then Panics
      "option 'insecure' used with 'tls-cert' or 'tls-key': combination is not valid"
    else step opts
  else
    let '(certPath, keyPath) := (String c "tls-cert", String c "tls-key") in
    step (opts ++ [config.WithTLS certPath keyPath]).

End Commands.

(** The commands that reach the beacon loop. *)
Section Run.
Context {O : Os} {K : Kyber} {SO : @key.ShareOps K} {E : @Ecies K}
        {BO : @beacon.HandlerOps K SO}.

(** How a command ends: it returns, [slog.Fatal] exits the process, or
    it panics. *)
Inductive ended : Type :=
| Finished (d : core.Drand)
| Fatal (err : error)
| Panicked (msg : string).

(** What the commands find outside the process: the key store of each
    configuration folder, the group file, and what the collaborators
    answer to the facade. *)
Record Outside : Type := {
  NewFileStore : string -> key.Store;
  loadGroupFile : string -> key.Group * option error;
  newHandlerError : option error;
  dkgResult : core.DkgResult;
  boltStore : beacon.Store * option error
}.

(** [beaconCmd]. *)
Definition beaconCmd (default : config.Config) (w : Outside) (c : Context)
  : ended :=
  match contextToConfig default c with
  | Panics m => Panicked m
  | Returns conf =>
      let fs := NewFileStore w (config.ConfigFolder conf) in
      match core.LoadDrand fs conf (boltStore w) with
      | Panics m => Panicked m
      | Returns (_, Some err) => Fatal err
      | Returns (None, None) => Panicked "nil pointer dereference"
      | Returns (Some drand, None) =>
          match core.BeaconLoop drand with
          | Panics m => Panicked m
          | Returns d => Finished d
          end
      end
  end.

(** [runDkg]; the store [ks] of the source is the one the instance
    holds. *)
Definition runDkg (w : Outside) (c : Context) (d : core.Drand) : ended :=
  match (if Bool c "leader"
         then core.StartDKG (dkgResult w) (boltStore w) d
         else core.WaitDKG (dkgResult w) (boltStore w) d) with
  | Panics m => Panicked m
  | Returns (Some err, _) => Fatal err
  | Returns (None, d) =>
      match key.LoadDistPublic (core.store d) with
      | (_, Some err) => Fatal err
      | (_, None) => Finished d
      end
  end.

(** [runCmd]. *)
Definition runCmd (default : config.Config) (w : Outside) (c : Context)
  : ended :=
  match contextToConfig default c with
  | Panics m => Panicked m
  | Returns conf =>
      let fs := NewFileStore w (config.ConfigFolder conf) in
      let started :=
        match args c with
        | file :: _ =>
            match loadGroupFile w file with
            | (_, Some err) => Fatal err
            | (group, None) =>
                match core.NewDrand fs group conf (newHandlerError w) with
                | Panics m => Panicked m
                | Returns (_, Some err) => Fatal err
                | Returns (None, None) => Panicked "nil pointer dereference"
                | Returns (Some drand, None) => runDkg w c drand
                end
            end
        | [] =>
            match core.LoadDrand fs conf (boltStore w) with
            | Panics m => Panicked m
            | Returns (_, Some err) => Fatal err
            | Returns (None, None) => Panicked "nil pointer dereference"
            | Returns (Some drand, None) => Finished drand
            end
        end in
      match started with
      | Finished drand =>
          match core.BeaconLoop drand with
          | Panics m => Panicked m
          | Returns d => Finished d
          end
      | stopped => stopped
      end
  end.

(** The command line [c] with the flag "seed" replaced, among the
    flags of the command and among the global ones. *)
Definition with_seed (f g : Flag) (c : Context) : Context :=
  {| flags := <["seed" := f]> (flags c);
     globalFlags := <["seed" := g]> (globalFlags c);
     args := args c |}.

(** *** The other commands *)

(** How the other commands end: they return, [slog.Fatal] prints its
    arguments and exits the process, or they panic. *)
Inductive exit (A : Type) : Type :=
| Done (a : A)
| Exits (msg : string) (cause : option error)
| Crashes (msg : string).
Arguments Done {A} a.
Arguments Exits {A} msg cause.
Arguments Crashes {A} msg.

Definition Int (c : Context) (name : string) : Z :=
  match flags c !! name with
  | Some {| value := VInt n |} => n
  | _ => 0
  end.

Definition NArg (c : Context) : Z := Z.of_nat (length (args c)).

Definition gname : string := "group.toml".

(** What [groupCmd] finds outside: [key.DefaultThreshold], [key.Load] on
    an identity file, the working directory, and [key.Save] of the group
    [key.NewGroup(publics, threshold)] at a path. *)
Record GroupOutside : Type := {
  DefaultThreshold : Z -> Z;
  loadIdentity : string -> key.Identity * option error;
  Pwd : string;
  saveGroup : string -> list key.Identity -> Z -> option error
}.

(** The loop of [groupCmd] over the identity files: it stops at the first
    file that does not load. *)
Fixpoint readIdentities (w : GroupOutside) (files : list string)
  : list key.Identity + error :=
  match files with
  | [] => inl []
  | str :: rest =>
      match loadIdentity w str with
      | (_, Some err) => inr err
      | (pub, None) =>
          match readIdentities w rest with
          | inl publics => inl (pub :: publics)
          | inr err => inr err
          end
      end
  end.

(** [groupCmd]: the path written, and the identities and the threshold
    handed to [key.NewGroup]. *)
Definition groupCmd (w : GroupOutside) (c : Context)
  : exit (string * list key.Identity * Z) :=
  match args c with
  | [] => Exits "missing identity file to create the group.toml" None
  | _ :: _ =>
      if NArg c <? 3
      then Exits "not enough identities to create a group toml. At least 3!" None
      else
        let threshold := DefaultThreshold w (NArg c) in
        let threshold :=
          if IsSet c "threshold" then Int c "threshold" else threshold in
        match readIdentities w (args c) with
        | inr err => Exits "" (Some err)
        | inl publics =>
            let groupPath := path_Join (Pwd w) gname in
            let groupPath :=
              if negb (String.eqb (String c "out") "")
              then String c "out" else groupPath in
            match saveGroup w groupPath publics threshold with
            | Some err => Exits "" (Some err)
            | None => Done (groupPath, publics, threshold)
            end
        end
  end.

(** [dkgCmd], with [getGroup] read first. *)
Definition dkgCmd (default : config.Config) (w : Outside) (c : Context)
  : exit core.Drand :=
  match args c with
  | [] => Exits "dkg requires a group.toml file" None
  | file :: _ =>
      match loadGroupFile w file with
      | (_, Some err) => Exits "" (Some err)
      | (group, None) =>
          match contextToConfig default c with
          | Panics m => Crashes m
          | Returns conf =>
              let fs := NewFileStore w (config.ConfigFolder conf) in
              match core.NewDrand fs group conf (newHandlerError w) with
              | Panics m => Crashes m
              | Returns (_, Some err) => Exits "" (Some err)
              | Returns (None, None) => Crashes "nil pointer dereference"
              | Returns (Some drand, None) =>
                  match runDkg w c drand with
                  | Finished d => Done d
                  | Fatal err => Exits "" (Some err)
                  | Panicked m => Crashes m
                  end
              end
          end
      end
  end.

(** What [fetchPublicCmd] finds outside: [key.Load] on the file of the
    distributed key, the gRPC client built on the certificates given, and
    the error of [json.MarshalIndent]. *)
Record FetchOutside : Type := {
  loadDistPublic : string -> key.DistPublic * option error;
  NewGrpcClientFromCert : list string -> client.ExternalClient;
  jsonError : option pb.PublicRandResponse -> option error
}.

(** [fetchPublicCmd]: the response printed. *)
Definition fetchPublicCmd (w : FetchOutside) (c : Context)
  : exit (option pb.PublicRandResponse) :=
  match args c with
  | [] => Exits "fetch command takes the address of a server to contact" None
  | first :: _ =>
      match loadDistPublic w (String c "public") with
      | (_, Some err) => Exits "" (Some err)
      | (public, None) =>
          let certs :=
            if IsSet c "tls-cert" then [String c "tls-cert"] else [] in
          let cl := {| client.client := NewGrpcClientFromCert w certs;
                       client.public := None |} in
          match client.LastPublic cl first (Some public)
                  (negb (Bool c "insecure")) with
          | Panics m => Crashes m
          | Returns (_, Some err) =>
              Exits "could not get verified randomness:" (Some err)
          | Returns (resp, None) =>
              match jsonError w resp with
              | Some err => Exits "could not JSON marshal:" (Some err)
              | None => Done resp
              end
          end
      end
  end.

(** What [keygenCmd] finds outside: the two key generators, the key store
    of a configuration folder, the name of the key folder,
    [filepath.Abs], and the error of the TOML encoder. *)
Record KeygenOutside : Type := {
  NewKeyPair : string -> key.Pair;
  NewTLSKeyPair : string -> key.Pair;
  keyStoreAt : string -> key.Store;
  KeyFolderName : string;
  filepath_Abs : string -> string * option error;
  tomlError : key.Identity -> option error
}.

(** [keygenCmd]: the key store afterwards, and the path printed when a
    key pair was written. *)
Definition keygenCmd (default : config.Config) (w : KeygenOutside)
    (c : Context) : exit (key.Store * option string) :=
  match args c with
  | [] => Exits "Missing drand address in argument (IPv4, dns)" None
  | first :: _ =>
      let priv := if Bool c "insecure"
                  then NewKeyPair w first
                  else NewTLSKeyPair w first in
      match contextToConfig default c with
      | Panics m => Crashes m
      | Returns config =>
          let fs := keyStoreAt w (config.ConfigFolder config) in
          match key.LoadKeyPair fs with
          | (_, None) => Done (fs, None)
          | (_, Some _) =>
              match key.SaveKeyPair fs priv with
              | (_, Some err) => Exits "could not save key: " (Some err)
              | (fs, None) =>
                  let fullpath :=
                    path_Join (config.ConfigFolder config) (KeyFolderName w) in
                  match filepath_Abs w fullpath with
                  | (_, Some err) => Exits "err getting full path: " (Some err)
                  | (absPath, None) =>
                      match tomlError w (key.Pair_Public priv) with
                      | Some _ => Crashes "toml"
                      | None => Done (fs, Some absPath)
                      end
                  end
              end
          end
      end
  end.

End Run.

Arguments Done {A} a.
Arguments Exits {A} msg cause.
Arguments Crashes {A} msg.

End main.

(** ** The contract of the encryption

    Modelled from the spec: the ecies package and the marshalling of
    kyber are not among the sources; "ECIES encrypt-then-decrypt recovers
    the plaintext for all valid keys", the server "ECIES-encrypts those 32
    bytes to E; returns the ciphertext", and the ephemeral point of a
    ciphertext is on the curve both peers use.  A valid key is the public
    key [G2_Point_Mul s] of a scalar [s]. *)
Record EciesContract `{Ecies} : Prop := {
  marshal_valid :
    forall s, snd (MarshalBinary (G2_Point_Mul s)) = None;
  unmarshal_marshal :
    forall P buf, MarshalBinary P = (buf, None) ->
                  UnmarshalBinary buf = (P, None);
  encrypt_valid :
    forall coins s m, exists c,
      Encrypt coins (G2_Point_Mul s) m = (Some c, None);
  decrypt_encrypt :
    forall coins s m c,
      Encrypt coins (G2_Point_Mul s) m = (Some c, None) ->
      Decrypt s (Some c) = (m, None);
  ephemeral_on_G2 :
    forall coins P m c,
      Encrypt coins P m = (Some c, None) ->
      ProtoToKyberPoint (Ephemeral c) = (Some G2_String, None)
}.

(** ** A small instance of the collaborators

    Arithmetic modulo 23 stands for the group, a tagged envelope for the
    hybrid encryption.  The instance gives the statements below concrete
    inputs to run on. *)

Module toy.

Definition bytes_eqb (a b : bytes) : bool :=
  bool_decide (Byte.to_N <$> a = Byte.to_N <$> b).

#[export] Instance kyber : Kyber := {|
  Point := Z;
  Scalar := Z;
  ProtoPoint := string * Z;
  G2_Scalar := 7;
  G2_Point_Mul := fun s => (s * 5) mod 23;
  G2_String := "bn256.G2";
  MarshalBinary := fun P =>
    if 0 <=? P then (repeat x01 (Z.to_nat P), None)
    else ([], Some (ErrForeign "kyber" "invalid point"));
  UnmarshalBinary := fun buf => (Z.of_nat (length buf), None);
  ProtoToKyberPoint := fun pp =>
    match pp with
    | Some (name, _) => (Some name, None)
    | None => (None, Some (ErrForeign "crypto" "nil point"))
    end;
  bls_Verify := fun pub msg sig =>
    if bytes_eqb sig (msg ++ repeat x01 (Z.to_nat pub)) then None
    else Some (ErrForeign "bls" "invalid signature")
|}.

Record envelope : Type := {
  eph : Z;
  tag : Z;
  body : bytes
}.

#[export] Instance ecies : Ecies := {|
  ECIES := envelope;
  Coins := Z;
  Ephemeral := fun c => Some ("bn256.G2", eph c);
  Encrypt := fun r P m =>
    (Some {| eph := (r * 5) mod 23; tag := (r * P) mod 23; body := m |}, None);
  Decrypt := fun s c =>
    match c with
    | None => ([], Some (ErrForeign "ecies" "nil cipher"))
    | Some c =>
        if tag c =? (s * eph c) mod 23 then (body c, None)
        else ([], Some (ErrForeign "ecies" "authentication failed"))
    end
|}.

#[export] Instance shares : key.ShareOps := {|
  key.Share := Z;
  key.Share_Public := fun s => {| key.Key := (s * 5) mod 23 |}
|}.

#[export] Instance handler : beacon.HandlerOps := {|
  beacon.BeaconRequest := Z * bytes;
  beacon.BeaconResponse := bytes;
  beacon.ProcessBeacon := fun h st req =>
    match req with
    | Some (round, prev) => (Some (beacon.Message prev round), None)
    | None => (None, Some (ErrForeign "beacon" "nil request"))
    end
|}.

#[export] Instance os : main.Os := {|
  main.path_Join := fun a b => String.append a (String.append "/" b);
  main.fs_Files := fun dir => ([String.append dir "/ca.pem"], None)
|}.

Definition identity : key.Identity :=
  {| key.Identity_Key := 15; key.Identity_Addr := "127.0.0.1:8000";
     key.Identity_TLS := false |}.

(** The long-term key pair: [3 * 5 mod 23 = 15]. *)
Definition pair : key.Pair :=
  {| key.Pair_Key := 3; key.Pair_Public := identity |}.

Definition the_group : key.Group :=
  {| key.Nodes := [identity]; key.Threshold := 1 |}.

Definition keys : key.Store :=
  {| key.stored_pair := Some pair; key.stored_share := None;
     key.stored_dist := None; key.stored_group := None;
     key.store_fault := None |}.

Definition conf : config.Config :=
  {| config.configFolder := "/drand"; config.dbFolder := "/drand/db";
     config.listenAddr := ""; config.beaconPeriod := 60;
     config.dkgTimeout := 10; config.insecure := true;
     config.certPath := ""; config.keyPath := "";
     config.certmanager := [] |}.

Definition empty_db : beacon.Store :=
  {| beacon.beacons := []; beacon.fault := None |}.

Definition beacon4 : beacon.Beacon :=
  {| beacon.PreviousRand := [x0a]; beacon.Round := 4;
     beacon.Randomness := [x0b] |}.

Definition beacon5 : beacon.Beacon :=
  {| beacon.PreviousRand := [x0b]; beacon.Round := 5;
     beacon.Randomness := [x0c] |}.

Definition db : beacon.Store :=
  {| beacon.beacons := [beacon5; beacon4]; beacon.fault := None |}.

Definition broken_db : beacon.Store :=
  {| beacon.beacons := [beacon4];
     beacon.fault := Some (ErrForeign "bolt" "input/output error") |}.

Definition bolt_timeout : error := ErrForeign "bolt" "timeout".

(** The instance [NewDrand] returns on this configuration. *)
Definition fresh : core.Drand :=
  match core.NewDrand keys the_group conf None with
  | Returns (Some d, _) => d
  | _ =>
      {| core.opts := conf; core.priv := pair; core.group := None;
         core.store := keys; core.dkg := None; core.beacon := None;
         core.beaconStore := None; core.share := None; core.pub := None;
         core.dkgDone := false; core.trace := [] |}
  end.

Definition share4 : key.Share := 4.

Definition request (round : Z) (prev : bytes)
  : option beacon.BeaconRequest := Some (round, prev).

Definition response (partial : bytes) : option beacon.BeaconResponse :=
  Some partial.

(** After a DKG that delivered the share 4, with the database [bolt]. *)
Definition after_dkg (bolt : beacon.Store * option error) : core.Drand :=
  match core.WaitDKG (core.ShareReady share4) bolt fresh with
  | Returns (_, d) => d
  | Panics _ => fresh
  end.

Definition serving : core.Drand := after_dkg (db, None).
Definition starting : core.Drand := after_dkg (empty_db, None).
Definition faulty : core.Drand := after_dkg (broken_db, None).
Definition stuck : core.Drand := after_dkg (empty_db, Some bolt_timeout).

(** The distributed public key of the share 4, a response signed under
    it and one that is not. *)
Definition dist : key.DistPublic := key.Share_Public share4.

Definition genuine : pb.PublicRandResponse :=
  {| pb.Previous := [x0a]; pb.Round := 4;
     pb.Randomness := beacon.Message [x0a] 4 ++ repeat x01 20 |}.

Definition forged : pb.PublicRandResponse :=
  {| pb.Previous := [x0a]; pb.Round := 4; pb.Randomness := [xff] |}.

(** The bytes the system source delivers to the server. *)
Definition drawn : bytes := repeat x2a 32.

(** A client whose transport answers [Public] with [r] and hands
    [Private] to the instance [d]. *)
Definition connected (r : pb.PublicRandResponse) (d : core.Drand)
  : client.Client :=
  {| client.client :=
       {| client.ec_Public := fun _ => (Some r, None);
          client.ec_Private := fun _ req => core.Private d req drawn None 11 |};
     client.public := None |}.

(** The request of a client whose ephemeral point is 12, encrypted to
    the server's key 15 with the coins 9. *)
Definition asked : option pb.PrivateRandRequest :=
  Some {| pb.Request :=
            Some {| eph := 22; tag := 20; body := repeat x01 12 |} |}.

(** The command line [drand beacon --period 30s --insecure], with the
    defaults of the other flags. *)
Definition command : main.Context :=
  {| main.flags :=
       <["period" := {| main.value := main.VDuration 30; main.isSet := true |}]>
       (<["insecure" := {| main.value := main.VBool true; main.isSet := true |}]>
       (<["seed" := {| main.value := main.VString "Truth"; main.isSet := false |}]> ∅));
     main.globalFlags :=
       <["config" := {| main.value := main.VString "/drand"; main.isSet := false |}]>
       (<["db" := {| main.value := main.VString "db"; main.isSet := false |}]> ∅);
     main.args := [] |}.

Definition other_seed : main.Flag :=
  {| main.value := main.VString "another seed"; main.isSet := true |}.

Definition outside : main.Outside :=
  {| main.NewFileStore := fun _ =>
       {| key.stored_pair := Some pair; key.stored_share := Some share4;
          key.stored_dist := Some dist; key.stored_group := Some the_group;
          key.store_fault := None |};
     main.loadGroupFile := fun _ => (the_group, None);
     main.newHandlerError := None;
     main.dkgResult := core.ShareReady share4;
     main.boltStore := (db, None) |}.

(** A key store on a read-only file system, and the new instance on it. *)
Definition faulty_keys : key.Store :=
  {| key.stored_pair := Some pair; key.stored_share := None;
     key.stored_dist := None; key.stored_group := None;
     key.store_fault := Some (ErrForeign "fs" "read-only file system") |}.

Definition unsaved : core.Drand := core.set_store faulty_keys fresh.

(** The key store after a DKG, and the instance restored from it. *)
Definition full_keys : key.Store := main.NewFileStore outside "/drand".

Definition restored : core.Drand :=
  match core.LoadDrand full_keys conf (db, None) with
  | Returns (Some d, _) => d
  | _ => fresh
  end.

(** A history: a DKG packet, the share, a beacon request, the stop. *)
Definition history : list core.Call :=
  [core.CallSetup [x01];
   core.CallWaitDKG (core.ShareReady share4) (db, None);
   core.CallNewBeacon (request 6 [x0c]);
   core.CallStop].

Definition driven : core.Drand :=
  match core.run history fresh with
  | Returns d => d
  | Panics _ => fresh
  end.

(** The instance [runDkg] returns on the command line [command]. *)
Definition ran : core.Drand :=
  match main.runDkg outside command fresh with
  | main.Finished d => d
  | _ => fresh
  end.

(** A default configuration with TLS, and a command line that gives the
    certificate and forgets the key. *)
Definition tls_default : config.Config :=
  {| config.configFolder := "/drand"; config.dbFolder := "/drand/db";
     config.listenAddr := ""; config.beaconPeriod := 60;
     config.dkgTimeout := 10; config.insecure := false;
     config.certPath := ""; config.keyPath := "";
     config.certmanager := [] |}.

Definition tls_command : main.Context :=
  {| main.flags :=
       <["tls-cert" := {| main.value := main.VString "cert.pem";
                          main.isSet := true |}]> ∅;
     main.globalFlags := main.globalFlags command;
     main.args := [] |}.

(** A command line that gives "insecure" and a certificate. *)
Definition clash_command : main.Context :=
  {| main.flags :=
       <["insecure" := {| main.value := main.VBool true; main.isSet := true |}]>
       (<["tls-cert" := {| main.value := main.VString "cert.pem";
                           main.isSet := true |}]> ∅);
     main.globalFlags := main.globalFlags command;
     main.args := [] |}.

(** The outside of [fetch public]: the server answers with [genuine]. *)
Definition fetch_outside : main.FetchOutside :=
  {| main.loadDistPublic := fun _ => (dist, None);
     main.NewGrpcClientFromCert := fun _ =>
       client.client (connected genuine serving);
     main.jsonError := fun _ => None |}.

Definition fetch_command : main.Context :=
  {| main.flags :=
       <["public" := {| main.value := main.VString "dist_key.public";
                        main.isSet := true |}]> ∅;
     main.globalFlags := ∅;
     main.args := ["127.0.0.1:8000"] |}.

(** The outside of [group]: three identity files, a threshold of 1. *)
Definition member (file : string) : key.Identity :=
  {| key.Identity_Key := Z.of_nat (String.length file);
     key.Identity_Addr := file; key.Identity_TLS := true |}.

Definition group_outside : main.GroupOutside :=
  {| main.DefaultThreshold := fun n => n / 2 + 1;
     main.loadIdentity := fun file => (member file, None);
     main.Pwd := "/home";
     main.saveGroup := fun _ _ _ => None |}.

Definition group_command : main.Context :=
  {| main.flags :=
       <["threshold" := {| main.value := main.VInt 1; main.isSet := true |}]> ∅;
     main.globalFlags := ∅;
     main.args := ["a.public"; "bb.public"; "ccc.public"] |}.

(** The outside of [keygen], on a folder that holds a key pair. *)
Definition keygen_outside : main.KeygenOutside :=
  {| main.NewKeyPair := fun a =>
       {| key.Pair_Key := 3;
          key.Pair_Public := {| key.Identity_Key := 15; key.Identity_Addr := a;
                                key.Identity_TLS := false |} |};
     main.NewTLSKeyPair := fun a =>
       {| key.Pair_Key := 3;
          key.Pair_Public := {| key.Identity_Key := 15; key.Identity_Addr := a;
                                key.Identity_TLS := true |} |};
     main.keyStoreAt := fun _ => keys;
     main.KeyFolderName := "key";
     main.filepath_Abs := fun p => (p, None);
     main.tomlError := fun _ => None |}.

Definition keygen_command : main.Context :=
  {| main.flags := ∅;
     main.globalFlags := main.globalFlags command;
     main.args := ["drand.example:443"] |}.

End toy.

(** * Properties *)

(** ** The beacon store *)

Section StoreFacts.

Lemma latest_None (l : list beacon.Beacon) :
  beacon.latest l = None <-> l = [].
Proof.
  destruct l as [|b l]; cbn; [tauto|].
  split; [|discriminate].
  destruct (beacon.latest l) as [b'|]; [|discriminate].
  destruct (beacon.Round b' <? beacon.Round b); discriminate.
Qed.

(** [latest] picks an element of the log, and none has a greater round. *)
Lemma latest_greatest (l : list beacon.Beacon) (b : beacon.Beacon) :
  beacon.latest l = Some b ->
  b ∈ l /\ forall b', b' ∈ l -> beacon.Round b' <= beacon.Round b.
Proof.
  revert b. induction l as [|a l IH]; intros b; cbn; [discriminate|].
  destruct (beacon.latest l) as [m|] eqn:Hm.
  - destruct (IH m eq_refl) as [Hin Hmax].
    destruct (beacon.Round m <? beacon.Round a) eqn:Hlt; intros [= <-].
    + apply Z.ltb_lt in Hlt. split; [left|].
      intros b' [->|Hb']%elem_of_cons; [lia|].
      specialize (Hmax b' Hb'). lia.
    + apply Z.ltb_ge in Hlt. split; [by right|].
      intros b' [->|Hb']%elem_of_cons; [lia|by apply Hmax].
  - intros [= <-]. apply latest_None in Hm as ->.
    split; [left|]. intros b' [->|Hb']%elem_of_cons; [lia|].
    by apply elem_of_nil in Hb'.
Qed.

(** [Last] answers with a beacon or with an error, never with both or
    with neither. *)
Lemma Last_cases (st : beacon.Store) :
  (exists b, beacon.Last st = (Some b, None))
  \/ (exists e, beacon.Last st = (None, Some e)).
Proof.
  unfold beacon.Last.
  destruct (beacon.fault st); [right; eauto|].
  destruct (beacon.latest (beacon.beacons st)); [left|right]; eauto.
Qed.

Lemma Last_empty (st : beacon.Store) :
  beacon.beacons st = [] -> exists e, beacon.Last st = (None, Some e).
Proof.
  intros Hnil. unfold beacon.Last. rewrite Hnil. cbn.
  destruct (beacon.fault st); eauto.
Qed.

End StoreFacts.

(** ** The facade *)

Section FacadeFacts.
Context {K : Kyber} {SO : @key.ShareOps K} {E : @Ecies K}
        {BO : @beacon.HandlerOps K SO}.

Implicit Types d : core.Drand.

(** *** The DKG handler and the flag along a history *)

Lemma initBeacon_fields bolt d d' e :
  core.initBeacon bolt d = (d', e) ->
  core.dkgDone d' = true /\ core.dkg d' = core.dkg d
  /\ core.opts d' = core.opts d /\ core.store d' = core.store d.
Proof.
  unfold core.initBeacon. destruct bolt as [st [err|]]; intros [= <- <-]; done.
Qed.

Local Ltac kept := cbn in *; intuition congruence.

Lemma WaitDKG_keeps_dkg r bolt d e d' :
  core.WaitDKG r bolt d = Returns (e, d') ->
  core.dkg d' = core.dkg d
  /\ (core.dkgDone d = true -> core.dkgDone d' = true).
Proof.
  unfold core.WaitDKG.
  destruct (core.dkg d) eqn:Hd; [|discriminate].
  destruct r as [s|[err|]]; cbn.
  - destruct (core.initBeacon _ _) as [d1 e1] eqn:Hi.
    apply initBeacon_fields in Hi as (? & ? & _). intros [= <- <-]. kept.
  - intros [= <- <-]. kept.
  - destruct (core.share d); [|discriminate].
    destruct (core.initBeacon _ _) as [d1 e1] eqn:Hi.
    apply initBeacon_fields in Hi as (? & ? & _). intros [= <- <-]. kept.
Qed.

Lemma call_keeps_dkg c d d' :
  core.call c d = Returns d' ->
  core.dkg d' = core.dkg d
  /\ (core.dkgDone d = true -> core.dkgDone d' = true).
Proof.
  destruct c; cbn.
  - unfold core.StartDKG. destruct (core.dkg d) eqn:Hd; [|discriminate].
    destruct (core.WaitDKG _ _ _) as [[e d1]|] eqn:Hw; [|discriminate].
    apply WaitDKG_keeps_dkg in Hw. intros [= <-]. kept.
  - destruct (core.WaitDKG _ _ _) as [[e d1]|] eqn:Hw; [|discriminate].
    apply WaitDKG_keeps_dkg in Hw. by intros [= <-].
  - unfold core.BeaconLoop.
    destruct (core.beaconStore d); [|discriminate].
    destruct (beacon.Last _) as [b [e|]].
    + destruct (is_ErrNoBeaconSaved e).
      * destruct (core.beacon d); [|discriminate]. intros [= <-]. kept.
      * intros [= <-]. kept.
    + destruct (core.beacon d); [|discriminate]. intros [= <-]. kept.
  - destruct (core.Public d); [|discriminate]. intros [= <-]. kept.
  - intros [= <-]. kept.
  - unfold core.Setup. destruct (core.isDKGDone d).
    + intros [= <-]. kept.
    + destruct (core.dkg d) eqn:?; [|discriminate]. intros [= <-]. kept.
  - unfold core.NewBeacon. destruct (core.isDKGDone d); cbn.
    + destruct (core.beacon d); [|discriminate]. intros [= <-]. kept.
    + intros [= <-]. kept.
  - unfold core.Stop. cbn. destruct (core.beacon d); intros [= <-]; kept.
Qed.

(** An instance in use that has not finished its DKG has its DKG
    handler. *)
Lemma reachable_dkg d :
  core.reachable d ->
  core.dkgDone d = true \/ exists h, core.dkg d = Some h.
Proof.
  induction 1 as [s g c d Hnew|s c bolt d Hload|d c d' _ IH Hcall].
  - right. unfold core.NewDrand in Hnew.
    destruct (core.initDrand s c) as [[[d0|] [e|]]|]; try discriminate.
    injection Hnew as <-. cbn. eauto.
  - left. unfold core.LoadDrand in Hload.
    destruct (core.initDrand s c) as [[[d0|] [e|]]|]; try discriminate.
    destruct (key.LoadGroup s) as [g [e|]]; [discriminate|].
    destruct (key.LoadShare s) as [sh [e|]]; [discriminate|].
    destruct (key.LoadDistPublic s) as [p [e|]]; [discriminate|].
    destruct (core.initBeacon _ _) as [d1 [e|]] eqn:Hi; [discriminate|].
    injection Hload as <-. by apply initBeacon_fields in Hi as (? & _).
  - apply call_keeps_dkg in Hcall as [Hdkg Hdone].
    destruct IH as [?|[h Hh]]; [left; auto|right].
    exists h. congruence.
Qed.

(** *** [Public] *)

(** C5. [Public] answers from [Last] of the beacon store: when [Last]
    returns a beacon the response carries that beacon's round, previous
    randomness and randomness and there is no error; when [Last] fails,
    as it does on an empty store, [Public] returns an error and no
    response. *)
Theorem Public_serves_last d (st : beacon.Store) :
  core.beaconStore d = Some st ->
  (forall b, beacon.Last st = (Some b, None) ->
     core.Public d =
     Returns (Some {| pb.Previous := beacon.PreviousRand b;
                      pb.Round := beacon.Round b;
                      pb.Randomness := beacon.Randomness b |}, None))
  /\ (forall e, snd (beacon.Last st) = Some e ->
        core.Public d =
        Returns (None, Some (fmt_Errorf "can't retrieve beacon: %s" e)))
  /\ (beacon.beacons st = [] ->
        exists e, core.Public d = Returns (None, Some e)).
Proof.
  intros Hst. unfold core.Public. rewrite Hst. split; [|split].
  - intros b Hb. rewrite Hb. reflexivity.
  - intros e. destruct (beacon.Last st) as [b [e'|]]; cbn; [|discriminate].
    intros [= ->]. by destruct b.
  - intros [e He]%Last_empty. rewrite He. eauto.
Qed.

(** *** [Setup] *)

(** C3. On an instance in use, [Setup] after the DKG-done flag is set
    returns an error and leaves the instance, and so the history of the
    DKG handler, as it was; while the flag is not set the packet goes
    to [Process] of the DKG handler and the empty response is returned
    without error. *)
Theorem Setup_gate d (packet : pb.DKGPacket) :
  core.reachable d ->
  (core.isDKGDone d = true ->
     core.Setup d packet =
     Returns (None, Some (errors_New "drand: dkg finished already"), d))
  /\ (core.isDKGDone d = false ->
        exists d',
          core.Setup d packet = Returns (Some pb.Build_DKGResponse, None, d')
          /\ core.trace d' = core.trace d ++ [core.EvDkgProcess packet]).
Proof.
  intros Hr. unfold core.Setup. split; intros Hdone; rewrite Hdone; [done|].
  destruct (reachable_dkg d Hr) as [Hd|[h Hh]].
  - unfold core.isDKGDone in Hdone. congruence.
  - rewrite Hh. eauto.
Qed.

End FacadeFacts.

Section HandlerFacts.
Context {K : Kyber} {SO : @key.ShareOps K} {E : @Ecies K}
        {BO : @beacon.HandlerOps K SO}.

Implicit Types d : core.Drand.

(** Case analysis of one call. *)
Local Ltac call_cases H :=
  cbn in H;
  unfold core.StartDKG, core.WaitDKG, core.BeaconLoop, core.Public,
    core.Setup, core.NewBeacon, core.Stop, core.initBeacon in H;
  repeat case_match; simplify_eq; cbn in *.

Lemma call_keeps_equipped c d d' :
  core.call c d = Returns d' -> core.equipped d -> core.equipped d'.
Proof.
  unfold core.equipped. intros Hc Hd.
  destruct c; call_cases Hc; try done; intuition congruence.
Qed.

Lemma reachable_equipped d : core.reachable d -> core.equipped d.
Proof.
  induction 1 as [s g c d Hnew|s c bolt d Hload|d c d' _ IH Hcall].
  - unfold core.NewDrand, core.initDrand in Hnew.
    repeat case_match; simplify_eq; done.
  - unfold core.LoadDrand, core.initDrand, core.initBeacon in Hload.
    repeat case_match; simplify_eq; cbn; split; intros; simplify_eq.
  - by eapply call_keeps_equipped.
Qed.

(** [initBeacon] sets the flag first; when the database cannot be opened
    it returns with the flag set and the handler untouched. *)
Lemma initBeacon_failure st err d :
  exists d', core.initBeacon (st, Some err) d = (d', Some err)
             /\ core.isDKGDone d' = true
             /\ core.beacon d' = core.beacon d.
Proof. eexists. split; [reflexivity|]. by cbn. Qed.

Lemma initBeacon_success st d :
  exists d' h, core.initBeacon (st, None) d = (d', None)
               /\ core.isDKGDone d' = true
               /\ core.beacon d' = Some h
               /\ core.beaconStore d' = Some st.
Proof. eexists _, _. split; [reflexivity|]. by cbn. Qed.

(** [WaitDKG] on a share whose beacon database cannot be opened: the
    error is returned, the flag is set, the handler is what it was. *)
Lemma WaitDKG_store_failure d (h : core.DkgHandler) (s : key.Share)
    (st : beacon.Store) (err : error) :
  core.dkg d = Some h ->
  exists d',
    core.WaitDKG (core.ShareReady s) (st, Some err) d = Returns (Some err, d')
    /\ core.isDKGDone d' = true
    /\ core.beacon d' = core.beacon d.
Proof.
  intros Hdkg. unfold core.WaitDKG. rewrite Hdkg. cbn.
  eexists. split; [reflexivity|]. by cbn.
Qed.

End HandlerFacts.

Section GateFacts.
Context {K : Kyber} {SO : @key.ShareOps K} {E : @Ecies K}
        {BO : @beacon.HandlerOps K SO}.

Implicit Types d : core.Drand.

(** *** [NewBeacon] *)

(** The gate of [NewBeacon] on an instance that has its handler.  While
    the DKG-done flag is not set [NewBeacon]
    returns an error and the instance, and so the history of the beacon
    handler, is as it was; once the flag is set and the instance has its
    beacon handler, the request goes to [ProcessBeacon] of that handler
    and what it returns is returned unchanged. *)
Theorem NewBeacon_gate d (req : option beacon.BeaconRequest) :
  (core.isDKGDone d = false ->
     core.NewBeacon d req =
     Returns (None, Some (errors_New "drand: dkg not finished"), d))
  /\ (forall h, core.isDKGDone d = true -> core.beacon d = Some h ->
        exists d',
          core.NewBeacon d req =
          Returns (beacon.ProcessBeacon h (core.beaconStore d) req, d')
          /\ core.trace d' = core.trace d ++ [core.EvProcessBeacon req]).
Proof.
  unfold core.NewBeacon. split.
  - by intros ->.
  - intros h -> ->. cbn. eauto.
Qed.

(** *** [BeaconLoop] *)

Lemma is_ErrNoBeaconSaved_spec (e : error) :
  is_ErrNoBeaconSaved e = true <-> e = ErrNoBeaconSaved.
Proof. destruct e; cbn; split; congruence. Qed.

(** C8. With its store and its handler, [BeaconLoop] calls [Loop] in
    catch-up mode when [Last] returns a beacon, calls it without
    catch-up when [Last] reports that no beacon is saved, and returns
    without calling it on any other error; so a call of [Loop] is in
    catch-up mode exactly when [Last] returned a beacon. *)
Theorem BeaconLoop_catchup d (st : beacon.Store) (h : beacon.Handler) :
  core.beaconStore d = Some st ->
  core.beacon d = Some h ->
  let period := config.beaconPeriod (core.opts d) in
  (forall b, beacon.Last st = (Some b, None) ->
     core.BeaconLoop d =
     Returns (core.emit (core.EvLoop core.DefaultSeed period true) d))
  /\ (snd (beacon.Last st) = Some ErrNoBeaconSaved ->
        core.BeaconLoop d =
        Returns (core.emit (core.EvLoop core.DefaultSeed period false) d))
  /\ (forall e, snd (beacon.Last st) = Some e -> e <> ErrNoBeaconSaved ->
        core.BeaconLoop d = Returns d)
  /\ (forall d' seed p catchup,
        core.BeaconLoop d = Returns d' ->
        core.trace d' = core.trace d ++ [core.EvLoop seed p catchup] ->
        (catchup = true <-> exists b, beacon.Last st = (Some b, None))).
Proof.
  intros Hst Hh period. unfold core.BeaconLoop. rewrite Hst, Hh.
  split; [|split; [|split]].
  - intros b Hb. by rewrite Hb.
  - destruct (beacon.Last st) as [b [e|]]; cbn; [|discriminate].
    by intros [= ->].
  - intros e. destruct (beacon.Last st) as [b [e'|]]; cbn; [|discriminate].
    intros [= ->] Hne.
    destruct (is_ErrNoBeaconSaved e) eqn:Hs; [|done].
    by apply is_ErrNoBeaconSaved_spec in Hs.
  - intros d' seed p catchup.
    destruct (Last_cases st) as [[b Hb]|[e He]].
    + rewrite Hb. intros [= <-]. cbn.
      intros [= <- <- <-]%app_inv_head. split; eauto.
    + rewrite He. destruct (is_ErrNoBeaconSaved e).
      * intros [= <-]. cbn. intros [= <- <- <-]%app_inv_head.
        split; [discriminate|]. intros [b [=]].
      * intros [= <-] Htr. apply (f_equal length) in Htr.
        rewrite length_app in Htr. cbn in Htr. lia.
Qed.

(** *** [WaitDKG] *)

(** The order of the saves.  On an instance with its DKG handler: when the DKG delivers a
    share, [WaitDKG] saves the share, then the distributed public key
    of that share, then the group, and [initBeacon] runs on the instance
    so obtained, its calls coming after the three saves; when the DKG
    delivers an error, [WaitDKG] returns that error and the instance is
    as it was, with no call made to the key store. *)
Theorem WaitDKG_persists_in_order d (h : core.DkgHandler)
    (bolt : beacon.Store * option error) :
  core.dkg d = Some h ->
  (forall s : key.Share, exists dm,
     core.trace dm =
       core.trace d ++ [core.EvSaveShare s;
                        core.EvSaveDistPublic (key.Share_Public s);
                        core.EvSaveGroup (core.group d)]
     /\ (key.store_fault (core.store d) = None ->
           key.stored_share (core.store dm) = Some s
           /\ key.stored_dist (core.store dm) = Some (key.Share_Public s)
           /\ key.stored_group (core.store dm) = core.group d)
     /\ core.WaitDKG (core.ShareReady s) bolt d =
          Returns (snd (core.initBeacon bolt dm), fst (core.initBeacon bolt dm))
     /\ exists evs,
          core.trace (fst (core.initBeacon bolt dm)) =
            core.trace dm
              ++ core.EvCreateSecureFolder (config.DBFolder (core.opts d))
              :: evs)
  /\ (forall e : error,
        core.WaitDKG (core.DkgFailed (Some e)) bolt d = Returns (Some e, d)).
Proof.
  intros Hdkg. unfold core.WaitDKG. rewrite Hdkg. split; [|done].
  intros s. cbn.
  match goal with
  | |- context [core.initBeacon bolt ?x] => exists x
  end.
  split; [|split; [|split]].
  - cbn. rewrite <- !app_assoc. reflexivity.
  - intros Hf. unfold key.SaveShare, key.SaveDistPublic, key.SaveGroup.
    cbn. rewrite Hf. cbn. done.
  - by destruct (core.initBeacon bolt _).
  - unfold core.initBeacon. destruct bolt as [db [err|]]; cbn;
      rewrite <- !app_assoc; cbn; eexists; rewrite <- app_assoc; reflexivity.
Qed.

End GateFacts.

Section SaveFacts.
Context {K : Kyber} {SO : @key.ShareOps K} {E : @Ecies K}
        {BO : @beacon.HandlerOps K SO}.

(** C2. Where the code departs from the claim: [WaitDKG] makes the three
    saves in the order share, distributed key, group, and drops their
    errors.  On a key store that fails, a share received leaves the store
    as it was, with nothing persisted, and the beacon is initialised all
    the same: the database is opened, the handler is built on the share,
    the flag is set, and [WaitDKG] returns nil. *)
Theorem WaitDKG_initialises_unsaved (d : core.Drand) (h : core.DkgHandler)
    (s : key.Share) (st : beacon.Store) (e : error) :
  core.dkg d = Some h ->
  key.store_fault (core.store d) = Some e ->
  exists d',
    core.WaitDKG (core.ShareReady s) (st, None) d = Returns (None, d')
    /\ core.store d' = core.store d
    /\ snd (key.SaveShare (core.store d) s) = Some e
    /\ core.isDKGDone d' = true
    /\ core.beacon d' =
       Some (beacon.NewHandler (core.priv d) (Some s) (core.group d))
    /\ core.beaconStore d' = Some st
    /\ core.trace d' =
       core.trace d ++ [core.EvSaveShare s;
                        core.EvSaveDistPublic (key.Share_Public s);
                        core.EvSaveGroup (core.group d);
                        core.EvCreateSecureFolder (config.DBFolder (core.opts d));
                        core.EvNewBoltStore (config.dbFolder (core.opts d));
                        core.EvNewHandler].
Proof.
  intros Hdkg Hf. unfold core.WaitDKG. rewrite Hdkg. cbn.
  eexists. split; [reflexivity|]. cbn.
  unfold key.SaveGroup, key.SaveDistPublic, key.SaveShare. cbn.
  rewrite Hf. cbn. rewrite Hf. cbn. rewrite Hf. cbn.
  rewrite <- !app_assoc. repeat split; done.
Qed.

End SaveFacts.

(** *** Concrete runs of the gates *)

#[local] Existing Instances toy.kyber toy.ecies toy.shares toy.handler toy.os.

Lemma Public_serves_last_witness :
  core.Public toy.serving =
  Returns (Some {| pb.Previous := [x0b]; pb.Round := 5;
                   pb.Randomness := [x0c] |}, None).
Proof.
  exact (proj1 (Public_serves_last toy.serving toy.db eq_refl)
           toy.beacon5 eq_refl).
Defined.

Lemma Setup_gate_witness :
  exists d',
    core.Setup toy.fresh [x01] = Returns (Some pb.Build_DKGResponse, None, d')
    /\ core.trace d' = core.trace toy.fresh ++ [core.EvDkgProcess [x01]].
Proof.
  refine (proj2 (Setup_gate toy.fresh [x01] _) eq_refl).
  apply (core.reachable_new toy.keys toy.the_group toy.conf). reflexivity.
Defined.

Lemma NewBeacon_gate_witness :
  exists d',
    core.NewBeacon toy.serving (toy.request 6 [x0c]) =
    Returns (toy.response (beacon.Message [x0c] 6), None, d')
    /\ core.trace d' =
       core.trace toy.serving ++ [core.EvProcessBeacon (toy.request 6 [x0c])].
Proof.
  exact (proj2 (NewBeacon_gate toy.serving (toy.request 6 [x0c]))
           _ eq_refl eq_refl).
Defined.

Lemma BeaconLoop_catchup_witness :
  core.BeaconLoop toy.serving =
  Returns (core.emit (core.EvLoop core.DefaultSeed 60 true) toy.serving).
Proof.
  exact (proj1 (BeaconLoop_catchup toy.serving toy.db _ eq_refl eq_refl)
           toy.beacon5 eq_refl).
Defined.

Lemma WaitDKG_persists_in_order_witness :
  (exists dm,
     core.trace dm =
       core.trace toy.fresh ++ [core.EvSaveShare toy.share4;
                                core.EvSaveDistPublic toy.dist;
                                core.EvSaveGroup (Some toy.the_group)]
     /\ core.WaitDKG (core.ShareReady toy.share4) (toy.db, None) toy.fresh =
        Returns (snd (core.initBeacon (toy.db, None) dm),
                 fst (core.initBeacon (toy.db, None) dm)))
  /\ core.WaitDKG (core.DkgFailed (Some toy.bolt_timeout)) (toy.db, None)
       toy.fresh
     = Returns (Some toy.bolt_timeout, toy.fresh).
Proof.
  destruct (WaitDKG_persists_in_order toy.fresh _ (toy.db, None) eq_refl)
    as [Hshare Herr].
  destruct (Hshare toy.share4) as (dm & Htrace & _ & Hwait & _).
  split; [exists dm; split; assumption|apply Herr].
Defined.

Lemma WaitDKG_initialises_unsaved_witness :
  exists d',
    core.WaitDKG (core.ShareReady toy.share4) (toy.db, None) toy.unsaved
    = Returns (None, d')
    /\ core.store d' = toy.faulty_keys
    /\ key.stored_share (core.store d') = None
    /\ core.isDKGDone d' = true
    /\ core.beaconStore d' = Some toy.db.
Proof.
  destruct (WaitDKG_initialises_unsaved toy.unsaved _ toy.share4 toy.db
              (ErrForeign "fs" "read-only file system") eq_refl eq_refl)
    as (d' & Hwait & Hstore & _ & Hdone & _ & Hdb & _).
  exists d'. split; [exact Hwait|]. split; [exact Hstore|].
  split; [rewrite Hstore; reflexivity|]. split; [exact Hdone|exact Hdb].
Defined.

(** *** The flag without the handler *)

(** The instance [toy.stuck]: the DKG delivered its share and the beacon
    database could not be opened. *)
Lemma stuck_reachable : core.reachable toy.stuck.
Proof.
  apply (core.reachable_call toy.fresh
           (core.CallWaitDKG (core.ShareReady toy.share4)
              (toy.empty_db, Some toy.bolt_timeout))).
  - apply (core.reachable_new toy.keys toy.the_group toy.conf). reflexivity.
  - reflexivity.
Qed.

(** C9. The run on which the flag is set and the handler is nil: a
    new instance, then [WaitDKG] receiving a share while the beacon
    database fails to open.  [WaitDKG] returns the error of the database,
    [isDKGDone] answers true, the beacon handler is nil, and the next
    [NewBeacon] panics. *)
Theorem NewBeacon_panic_reached :
  core.WaitDKG (core.ShareReady toy.share4) (toy.empty_db, Some toy.bolt_timeout)
    toy.fresh = Returns (Some toy.bolt_timeout, toy.stuck)
  /\ core.reachable toy.stuck
  /\ core.isDKGDone toy.stuck = true
  /\ core.beacon toy.stuck = None
  /\ core.NewBeacon toy.stuck (toy.request 0 []) =
     Panics "that's not ever should happen so I'm panicking right now".
Proof.
  split; [reflexivity|]. split; [exact stuck_reachable|].
  split; [reflexivity|]. split; reflexivity.
Qed.

(** C4. Where the code departs from the claim: on the instance in use
    [toy.stuck], whose DKG-done flag is set by an [initBeacon] that failed
    to open the database, [NewBeacon] does not hand the request to any
    beacon handler and returns nothing: it panics. *)
Lemma NewBeacon_not_delegated :
  core.reachable toy.stuck
  /\ core.isDKGDone toy.stuck = true
  /\ core.NewBeacon toy.stuck (toy.request 0 []) =
     Panics "that's not ever should happen so I'm panicking right now"
  /\ forall res d',
       core.NewBeacon toy.stuck (toy.request 0 []) <> Returns (res, d').
Proof.
  split; [exact stuck_reachable|]. split; [reflexivity|].
  split; [reflexivity|]. intros res d'. discriminate.
Qed.

(** ** The client *)

Section ClientFacts.
Context {K : Kyber} {E : @Ecies K}.

(** X17. A response that [LastPublic] returns without an error is the one
    the transport delivered, and it passed the BLS verification under the
    key [pub.Key] of the round message of its own previous randomness
    and round. *)
Lemma LastPublic_verified (c : client.Client) (a : string)
    (pub : key.DistPublic) (secure : bool)
    (resp : option pb.PublicRandResponse) :
  client.LastPublic c a (Some pub) secure = Returns (resp, None) ->
  bls_Verify (key.Key pub)
    (beacon.Message (pb.GetPrevious resp) (pb.GetRound resp))
    (pb.GetRandomness resp) = None.
Proof.
  unfold client.LastPublic, client.verify.
  destruct (client.ec_Public _ _) as [r [e|]]; [discriminate|].
  by intros [= -> ->].
Qed.

(** A response that fails the verification yields an error. *)
Lemma LastPublic_rejects (c : client.Client) (a : string)
    (pub : key.DistPublic) (secure : bool) resp e :
  client.ec_Public (client.client c)
    (client.peerAddr_Peer {| client.addr := a; client.t := secure |})
    = (resp, None) ->
  client.verify (key.Key pub) resp = Some e ->
  exists r,
    client.LastPublic c a (Some pub) secure = Returns (r, Some e).
Proof.
  intros Hfetch Hver. unfold client.LastPublic. rewrite Hfetch, Hver. eauto.
Qed.

(** C1. Where the code departs from the claim: a fetched response that
    fails the verification is returned by [LastPublic] together with the
    error of the verification, not replaced by nil. *)
Theorem LastPublic_error_keeps_response (c : client.Client) (a : string)
    (pub : key.DistPublic) (secure : bool)
    (resp : pb.PublicRandResponse) (e : error) :
  client.ec_Public (client.client c)
    (client.peerAddr_Peer {| client.addr := a; client.t := secure |})
    = (Some resp, None) ->
  bls_Verify (key.Key pub)
    (beacon.Message (pb.Previous resp) (pb.Round resp))
    (pb.Randomness resp) = Some e ->
  client.LastPublic c a (Some pub) secure = Returns (Some resp, Some e).
Proof.
  intros Hfetch Hver.
  unfold client.LastPublic, client.verify, pb.GetPrevious, pb.GetRound,
    pb.GetRandomness.
  by rewrite Hfetch, Hver.
Qed.

End ClientFacts.

Lemma LastPublic_error_keeps_response_witness :
  client.LastPublic (toy.connected toy.forged toy.serving) "127.0.0.1:8000"
    (Some toy.dist) true
  = Returns (Some toy.forged, Some (ErrForeign "bls" "invalid signature")).
Proof.
  exact (LastPublic_error_keeps_response
           (toy.connected toy.forged toy.serving) "127.0.0.1:8000"
           toy.dist true toy.forged _ eq_refl eq_refl).
Defined.

(** ** The seed *)

Section SeedFacts.
Context {O : main.Os} {K : Kyber} {SO : @key.ShareOps K} {E : @Ecies K}
        {BO : @beacon.HandlerOps K SO}.

(** [BeaconLoop] either makes no call of [Loop] or makes one with
    [DefaultSeed] and the period of the configuration. *)
Lemma BeaconLoop_seed (d d' : core.Drand) :
  core.BeaconLoop d = Returns d' ->
  d' = d
  \/ exists catchup,
       d' = core.emit (core.EvLoop core.DefaultSeed
                         (config.beaconPeriod (core.opts d)) catchup) d.
Proof.
  unfold core.BeaconLoop. intros H.
  repeat case_match; simplify_eq; eauto.
Qed.

Lemma contextToConfig_with_seed (default : config.Config)
    (f g : main.Flag) (c : main.Context) :
  main.contextToConfig default (main.with_seed f g c)
  = main.contextToConfig default c.
Proof.
  unfold main.contextToConfig, main.String, main.GlobalString, main.Bool,
    main.Duration, main.IsSet, main.lookup_string, main.with_seed.
  cbn [main.flags main.globalFlags main.args].
  by rewrite !lookup_insert_ne.
Qed.

(** C10. Whatever the instance and its configuration, [BeaconLoop] on an
    instance that has its store and its handler calls [Loop] with
    [DefaultSeed] as the seed and the period of the configuration, unless
    [Last] fails with an error other than the no-beacon one; no call of
    [Loop] made by [BeaconLoop] has another seed; and the flag "seed" of
    the command line is not read: replacing it changes neither the
    configuration [contextToConfig] builds nor what the commands [beacon]
    and [run] do. *)
Theorem seed_is_DefaultSeed :
  (forall (d : core.Drand) (st : beacon.Store) (h : beacon.Handler),
     core.beaconStore d = Some st ->
     core.beacon d = Some h ->
     snd (beacon.Last st) = None
     \/ snd (beacon.Last st) = Some ErrNoBeaconSaved ->
     exists catchup,
       core.BeaconLoop d =
       Returns (core.emit (core.EvLoop core.DefaultSeed
                             (config.beaconPeriod (core.opts d)) catchup) d))
  /\ (forall (d d' : core.Drand) seed period catchup,
        core.BeaconLoop d = Returns d' ->
        core.trace d' = core.trace d ++ [core.EvLoop seed period catchup] ->
        seed = core.DefaultSeed)
  /\ (forall default f g c,
        main.contextToConfig default (main.with_seed f g c)
        = main.contextToConfig default c)
  /\ (forall default w f g c,
        main.beaconCmd default w (main.with_seed f g c)
        = main.beaconCmd default w c)
  /\ (forall default w f g c,
        main.runCmd default w (main.with_seed f g c)
        = main.runCmd default w c).
Proof.
  split; [|split; [|split; [|split]]].
  - intros d st h Hst Hh Hlast. unfold core.BeaconLoop. rewrite Hst, Hh.
    destruct (beacon.Last st) as [b [e|]]; cbn in Hlast.
    + destruct Hlast as [[=]|[= ->]]. cbn. eauto.
    + eauto.
  - intros d d' seed period catchup [->|[cu ->]]%BeaconLoop_seed Htr.
    + apply (f_equal length) in Htr. rewrite length_app in Htr.
      cbn in Htr. lia.
    + cbn in Htr. by apply app_inv_head in Htr as [= <- _ _].
  - apply contextToConfig_with_seed.
  - intros. unfold main.beaconCmd. by rewrite contextToConfig_with_seed.
  - intros. unfold main.runCmd, main.runDkg, main.Bool.
    rewrite contextToConfig_with_seed.
    unfold main.with_seed. cbn [main.flags main.globalFlags main.args].
    by rewrite !lookup_insert_ne.
Qed.

End SeedFacts.

Lemma seed_is_DefaultSeed_witness :
  (exists catchup,
     core.BeaconLoop toy.serving =
     Returns (core.emit (core.EvLoop core.DefaultSeed 60 catchup) toy.serving))
  /\ main.beaconCmd toy.conf toy.outside
       (main.with_seed toy.other_seed toy.other_seed toy.command)
     = main.beaconCmd toy.conf toy.outside toy.command.
Proof.
  split.
  - exact (proj1 seed_is_DefaultSeed toy.serving toy.db _
             eq_refl eq_refl (or_introl eq_refl)).
  - exact (proj1 (proj2 (proj2 (proj2 seed_is_DefaultSeed)))
             toy.conf toy.outside toy.other_seed toy.other_seed toy.command).
Defined.

(** ** The private randomness exchange *)

Section PrivateFacts.
Context {K : Kyber} {SO : @key.ShareOps K} {E : @Ecies K}
        {BO : @beacon.HandlerOps K SO}.

Implicit Types d : core.Drand.

(** The array after a full read holds the first 32 bytes delivered. *)
Lemma rand_Read_full (delivered : bytes) (rerr : option error) :
  (32 <= length delivered)%nat ->
  core.rand_Read delivered rerr = (take 32 delivered, 32, rerr).
Proof.
  intros Hlen. unfold core.rand_Read.
  rewrite resize_le by done. rewrite length_take.
  by replace (32 `min` length delivered)%nat with 32%nat by lia.
Qed.

Lemma rand_Read_short (delivered : bytes) (rerr : option error) :
  (length delivered < 32)%nat ->
  snd (fst (core.rand_Read delivered rerr)) <> 32.
Proof.
  intros Hlen. unfold core.rand_Read. cbn [fst snd].
  rewrite length_take. lia.
Qed.

(** C6. [Private] returns an error and no response when the ephemeral
    point of the request is not a point of the supported group, when
    the decryption of the request fails, or when the recovered client
    key does not unmarshal; it returns an error and no response when
    the system source delivers fewer than 32 bytes or reports an error;
    otherwise it returns, in a response, what the encryption of the 32
    bytes drawn to the recovered client key returns: that ciphertext and
    no error when the encryption yields one. *)
Theorem Private_outcomes d (req : option pb.PrivateRandRequest)
    (delivered : bytes) (rerr : option error) (coins : Coins) :
  let cipher := pb.GetRequest req in
  let point := ProtoToKyberPoint (pb.GetEphemeral cipher) in
  let plain := Decrypt (key.Pair_Key (core.priv d)) cipher in
  let clientKey := UnmarshalBinary (fst plain) in
  let sealed := Encrypt coins (fst clientKey) (take 32 delivered) in
  let res := core.Private d req delivered rerr coins in
  (point <> (Some G2_String, None)
   \/ snd plain <> None \/ snd clientKey <> None ->
     exists e, res = (None, Some e))
  /\ ((length delivered < 32)%nat \/ rerr <> None ->
        exists e, res = (None, Some e))
  /\ (point = (Some G2_String, None) -> snd plain = None ->
      snd clientKey = None -> (32 <= length delivered)%nat -> rerr = None ->
        res = (Some {| pb.Response := fst sealed |}, snd sealed)
        /\ forall c, sealed = (Some c, None) ->
             res = (Some {| pb.Response := Some c |}, None)).
Proof.
  intros cipher point plain clientKey sealed res.
  subst res. unfold core.Private. fold cipher. fold point. fold plain.
  destruct point as [[name|] [perr|]] eqn:Hpoint; cbn zeta.
  1,3,4: split; [eauto|split; [eauto|intros [=]]].
  destruct (String.eqb name G2_String) eqn:Hname; cbn [negb].
  2: { split; [eauto|split; [eauto|]]. intros [= ->].
       by rewrite String.eqb_refl in Hname. }
  apply String.eqb_eq in Hname as ->.
  destruct plain as [msg [derr|]] eqn:Hplain; cbn [fst snd] in *.
  1: split; [eauto|split; [eauto|intros _ [=]]].
  fold clientKey.
  destruct clientKey as [ck [uerr|]] eqn:Hck; cbn [fst snd] in *.
  1: split; [eauto|split; [eauto|intros _ _ [=]]].
  destruct (le_lt_dec 32 (length delivered)) as [Hlen|Hlen].
  - rewrite rand_Read_full by done.
    destruct rerr as [e|]; cbn [negb Z.eqb Pos.eqb].
    + split; [intuition congruence|]. split; [eauto|]. intros _ _ _ _ [=].
    + fold sealed. split; [intuition congruence|].
      split; [intros [?|?]; [lia|done]|].
      intros _ _ _ _ _. split; [by destruct sealed|].
      by intros c ->.
  - pose proof (rand_Read_short delivered rerr Hlen) as Hn.
    destruct (core.rand_Read delivered rerr) as [[buf n] [e|]];
      cbn [fst snd] in Hn.
    + split; [intuition congruence|]. split; [eauto|]. intros _ _ _ ?. lia.
    + apply Z.eqb_neq in Hn. rewrite Hn. cbn [negb].
      split; [intuition congruence|]. split; [eauto|]. intros _ _ _ ?. lia.
Qed.

End PrivateFacts.

Section ExchangeFacts.
Context {K : Kyber} {SO : @key.ShareOps K} {E : @Ecies K}
        {BO : @beacon.HandlerOps K SO}.

(** The server's answer to a well-formed request: the 32 bytes drawn,
    encrypted to the point the client sent. *)
Lemma Private_answers (d : core.Drand) (s : Scalar) (buf : bytes)
    (c : ECIES) (delivered : bytes) (coinsC coinsS : Coins) :
  EciesContract ->
  MarshalBinary (G2_Point_Mul s) = (buf, None) ->
  Encrypt coinsC (G2_Point_Mul (key.Pair_Key (core.priv d))) buf
    = (Some c, None) ->
  (32 <= length delivered)%nat ->
  exists c',
    Encrypt coinsS (G2_Point_Mul s) (take 32 delivered) = (Some c', None)
    /\ core.Private d (Some {| pb.Request := Some c |}) delivered None coinsS
       = (Some {| pb.Response := Some c' |}, None).
Proof.
  intros HC Hbuf Hc Hlen.
  destruct (encrypt_valid HC coinsS s (take 32 delivered)) as [c' Hc'].
  exists c'. split; [done|].
  unfold core.Private. cbn [pb.GetRequest pb.Request pb.GetEphemeral].
  rewrite (ephemeral_on_G2 HC _ _ _ _ Hc), String.eqb_refl. cbn [negb].
  rewrite (decrypt_encrypt HC _ _ _ _ Hc).
  rewrite (unmarshal_marshal HC _ _ Hbuf).
  rewrite rand_Read_full by done. cbn [negb Z.eqb Pos.eqb].
  by rewrite Hc'.
Qed.

(** C7. When the ecies and kyber packages keep their contract, the
    client addresses the identity that carries the public key of the
    server's long-term pair, the transport hands the request to the
    server's [Private] and the answer back, and the system source
    delivers its 32 bytes, the client's [Private] returns exactly those
    32 bytes and no error. *)
Theorem private_exchange_roundtrip (c : client.Client) (d : core.Drand)
    (id : key.Identity) (delivered : bytes) (coinsC coinsS : Coins) :
  EciesContract ->
  key.Identity_Key id = G2_Point_Mul (key.Pair_Key (core.priv d)) ->
  (forall req,
     client.ec_Private (client.client c) (client.Identity_Peer id) req
     = core.Private d req delivered None coinsS) ->
  (32 <= length delivered)%nat ->
  client.Private c id coinsC = (take 32 delivered, None)
  /\ length (take 32 delivered) = 32%nat.
Proof.
  intros HC Hid Hnet Hlen. split; [|rewrite length_take; lia].
  unfold client.Private.
  pose proof (marshal_valid HC G2_Scalar) as Hm.
  destruct (MarshalBinary (G2_Point_Mul G2_Scalar)) as [buf merr] eqn:Hbuf.
  cbn in Hm. subst merr.
  rewrite Hid.
  destruct (encrypt_valid HC coinsC (key.Pair_Key (core.priv d)) buf)
    as [c1 Hc1].
  rewrite Hc1, Hnet.
  destruct (Private_answers d G2_Scalar buf c1 delivered coinsC coinsS
              HC Hbuf Hc1 Hlen) as (c2 & Hc2 & ->).
  cbn [pb.GetResponse pb.Response].
  exact (decrypt_encrypt HC _ _ _ _ Hc2).
Qed.

End ExchangeFacts.

(** *** The exchange on the small instance *)

Lemma toy_contract : @EciesContract toy.kyber toy.ecies.
Proof.
  split.
  - intros s. cbn. destruct (0 <=? s * 5 mod 23) eqn:Hpos; [done|].
    apply Z.leb_gt in Hpos. pose proof (Z.mod_pos_bound (s * 5) 23). lia.
  - intros P buf. cbn. destruct (0 <=? P) eqn:Hpos; [|discriminate].
    apply Z.leb_le in Hpos. intros [= <-].
    rewrite repeat_length, Z2Nat.id by done. done.
  - intros coins s m. cbn. eauto.
  - intros coins s m c. cbn. intros [= <-]. cbn.
    replace (s * (coins * 5 mod 23) mod 23) with (coins * (s * 5 mod 23) mod 23).
    + by rewrite Z.eqb_refl.
    + rewrite !Z.mul_mod_idemp_r by done. f_equal. lia.
  - intros coins P m c. cbn. by intros [= <-].
Qed.

Lemma Private_outcomes_witness :
  core.Private toy.serving toy.asked toy.drawn None 11
  = (Some {| pb.Response :=
               Some {| toy.eph := 9; toy.tag := 17; toy.body := toy.drawn |} |},
     None).
Proof.
  refine (proj2 (proj2 (proj2
            (Private_outcomes toy.serving toy.asked toy.drawn None 11))
            eq_refl eq_refl eq_refl _ eq_refl) _ eq_refl).
  cbn. lia.
Defined.

Lemma private_exchange_roundtrip_witness :
  client.Private (toy.connected toy.genuine toy.serving) toy.identity 9
  = (toy.drawn, None).
Proof.
  refine (proj1 (private_exchange_roundtrip
            (toy.connected toy.genuine toy.serving) toy.serving toy.identity
            toy.drawn 9 11 toy_contract eq_refl (fun _ => eq_refl) _)).
  cbn. lia.
Defined.

(** * Further properties of the facade *)

Section HistoryFacts.
Context {K : Kyber} {SO : @key.ShareOps K} {E : @Ecies K}
        {BO : @beacon.HandlerOps K SO}.

Implicit Types d : core.Drand.

Local Ltac call_cases H :=
  cbn in H;
  unfold core.StartDKG, core.WaitDKG, core.BeaconLoop, core.Public,
    core.Setup, core.NewBeacon, core.Stop, core.initBeacon in H;
  repeat case_match; simplify_eq; cbn in *.

(** What one call leaves as it was. *)
Lemma call_unchanged c d d' :
  core.call c d = Returns d' ->
  core.opts d' = core.opts d /\ core.priv d' = core.priv d
  /\ core.group d' = core.group d /\ core.pub d' = core.pub d
  /\ core.dkg d' = core.dkg d
  /\ (core.dkgDone d = true -> core.dkgDone d' = true)
  /\ core.trace d `prefix_of` core.trace d'.
Proof.
  intros Hc.
  destruct c; call_cases Hc;
    repeat split; try congruence; try done;
    repeat (apply prefix_app_r); done.
Qed.

(** X1. Along any sequence of calls that returns, the configuration, the
    key pair, the group, the distributed key and the DKG handler of an
    instance stay what they were, the DKG-done flag is never cleared, and
    the history is only extended. *)
Theorem run_unchanged (cs : list core.Call) d d' :
  core.run cs d = Returns d' ->
  core.opts d' = core.opts d /\ core.priv d' = core.priv d
  /\ core.group d' = core.group d /\ core.pub d' = core.pub d
  /\ core.dkg d' = core.dkg d
  /\ (core.dkgDone d = true -> core.dkgDone d' = true)
  /\ core.trace d `prefix_of` core.trace d'.
Proof.
  revert d. induction cs as [|c cs IH]; intros d; cbn.
  - intros [= <-]. repeat split; done.
  - destruct (core.call c d) as [d1|] eqn:Hc; [|discriminate].
    intros Hrun. apply call_unchanged in Hc. apply IH in Hrun.
    destruct Hc as (? & ? & ? & ? & ? & ? & ?).
    destruct Hrun as (? & ? & ? & ? & ? & ? & ?).
    repeat split; try congruence; [auto|by etrans].
Qed.

(** X2. Once [WaitDKG] has received a share, whether or not the beacon
    could then be initialised, every [Setup] that follows, after any
    further calls, is rejected and hands no packet to the DKG handler. *)
Theorem Setup_rejected_after_share d (s : key.Share)
    (bolt : beacon.Store * option error) (e : option error) d1
    (cs : list core.Call) d2 (packet : pb.DKGPacket) :
  core.WaitDKG (core.ShareReady s) bolt d = Returns (e, d1) ->
  core.run cs d1 = Returns d2 ->
  core.Setup d2 packet =
  Returns (None, Some (errors_New "drand: dkg finished already"), d2).
Proof.
  intros Hw Hrun.
  assert (core.dkgDone d1 = true) as Hdone.
  { unfold core.WaitDKG, core.initBeacon in Hw.
    repeat case_match; simplify_eq; done. }
  apply run_unchanged in Hrun as (_ & _ & _ & _ & _ & Hkeep & _).
  unfold core.Setup, core.isDKGDone. by rewrite (Hkeep Hdone).
Qed.

(** Before the flag is set an instance has neither store nor handler. *)
Lemma call_keeps_bare c d d' :
  core.call c d = Returns d' ->
  (core.dkgDone d = false ->
   core.beaconStore d = None /\ core.beacon d = None) ->
  core.dkgDone d' = false ->
  core.beaconStore d' = None /\ core.beacon d' = None.
Proof.
  intros Hc Hd.
  destruct c; call_cases Hc; intros; try done; intuition congruence.
Qed.

Lemma reachable_bare d :
  core.reachable d -> core.dkgDone d = false ->
  core.beaconStore d = None /\ core.beacon d = None.
Proof.
  induction 1 as [s g c d Hnew|s c bolt d Hload|d c d' _ IH Hcall].
  - unfold core.NewDrand, core.initDrand in Hnew.
    repeat case_match; simplify_eq; done.
  - unfold core.LoadDrand, core.initDrand, core.initBeacon in Hload.
    repeat case_match; simplify_eq; done.
  - by eapply call_keeps_bare.
Qed.

(** X3. [Public] and [BeaconLoop] are not gated on the DKG-done flag: on
    an instance in use whose DKG is not done there is no beacon store,
    and both panic on it, while [NewBeacon] answers with its error. *)
Theorem no_store_before_DKG d (req : option beacon.BeaconRequest) :
  core.reachable d ->
  core.isDKGDone d = false ->
  core.Public d = Panics "nil pointer dereference"
  /\ core.BeaconLoop d = Panics "nil pointer dereference"
  /\ core.NewBeacon d req =
     Returns (None, Some (errors_New "drand: dkg not finished"), d).
Proof.
  intros Hr Hdone. destruct (reachable_bare d Hr Hdone) as [Hst _].
  unfold core.Public, core.BeaconLoop, core.NewBeacon.
  by rewrite Hst, Hdone.
Qed.

(** X4. On an instance in use, [Public] and [BeaconLoop] panic exactly
    when the beacon handler is nil; with the handler both return. *)
Theorem panics_iff_no_handler d :
  core.reachable d ->
  (core.beacon d = None <-> exists m, core.Public d = Panics m)
  /\ (core.beacon d = None <-> exists m, core.BeaconLoop d = Panics m).
Proof.
  intros Hr. pose proof (reachable_equipped d Hr) as Heq.
  unfold core.equipped in Heq. unfold core.Public, core.BeaconLoop.
  destruct (core.beaconStore d) as [st|] eqn:Hst.
  - assert (core.beacon d <> None) as Hh by (intros ?; intuition congruence).
    destruct (core.beacon d) as [h|]; [|done].
    destruct (Last_cases st) as [[b ->]|[e ->]];
      [|destruct (is_ErrNoBeaconSaved e)];
      split; split; (try discriminate); intros [m [=]].
  - split; (split; [eauto|]); intros _; apply Heq; done.
Qed.

End HistoryFacts.

Section LifecycleFacts.
Context {O : main.Os} {K : Kyber} {SO : @key.ShareOps K} {E : @Ecies K}
        {BO : @beacon.HandlerOps K SO}.

Implicit Types d : core.Drand.

(** X6. [WaitDKG] drops the errors of the three saves: on a key store
    that fails, it still returns nil once the beacon is initialised, with
    nothing written; [runDkg] then exits on the error of
    [LoadDistPublic]. *)
Theorem WaitDKG_drops_save_errors d (h : core.DkgHandler) (s : key.Share)
    (st : beacon.Store) (e : error) :
  core.dkg d = Some h ->
  key.store_fault (core.store d) = Some e ->
  (exists d',
     core.WaitDKG (core.ShareReady s) (st, None) d = Returns (None, d')
     /\ core.store d' = core.store d)
  /\ forall (w : main.Outside) (c : main.Context),
       main.dkgResult w = core.ShareReady s ->
       main.boltStore w = (st, None) ->
       main.runDkg w c d = main.Fatal e.
Proof.
  intros Hdkg Hfault.
  assert (forall d0, core.dkg d0 = Some h ->
            key.store_fault (core.store d0) = Some e ->
            exists d',
              core.WaitDKG (core.ShareReady s) (st, None) d0
              = Returns (None, d')
              /\ core.store d' = core.store d0) as Hwait.
  { intros d0 H0 Hf. unfold core.WaitDKG. rewrite H0. cbn.
    eexists. split; [reflexivity|]. cbn.
    unfold key.SaveGroup, key.SaveDistPublic, key.SaveShare. cbn.
    rewrite Hf. cbn. rewrite Hf. cbn. by rewrite Hf. }
  split; [by apply Hwait|].
  intros w c Hres Hbolt. unfold main.runDkg, core.StartDKG.
  rewrite Hres, Hbolt, Hdkg.
  destruct (Hwait d Hdkg Hfault) as (d1 & Hw1 & Hs1).
  destruct (Hwait (core.emit core.EvDkgStart d) Hdkg Hfault)
    as (d2 & Hw2 & Hs2).
  rewrite Hw1, Hw2. cbn in Hs2.
  unfold key.LoadDistPublic, key.load.
  destruct (main.Bool c "leader"); rewrite ?Hs1, ?Hs2, Hfault; done.
Qed.

(** The key store after the three saves of [WaitDKG], when it has no
    fault. *)
Lemma saves_healthy (st : key.Store) (s : key.Share) (g : option key.Group) :
  key.store_fault st = None ->
  fst (key.SaveGroup
         (fst (key.SaveDistPublic (fst (key.SaveShare st s))
                 (key.Share_Public s))) g)
  = {| key.stored_pair := key.stored_pair st;
       key.stored_share := Some s;
       key.stored_dist := Some (key.Share_Public s);
       key.stored_group := g;
       key.store_fault := None |}.
Proof. intros Hf. unfold key.SaveShare. by rewrite Hf. Qed.

Lemma WaitDKG_share_store d (h : core.DkgHandler) (s : key.Share)
    (bolt : beacon.Store * option error) (e : option error) d1 :
  core.dkg d = Some h ->
  core.WaitDKG (core.ShareReady s) bolt d = Returns (e, d1) ->
  core.store d1 =
  fst (key.SaveGroup
         (fst (key.SaveDistPublic (fst (key.SaveShare (core.store d) s))
                 (key.Share_Public s))) (core.group d)).
Proof.
  intros Hdkg. unfold core.WaitDKG. rewrite Hdkg.
  cbn [core.share core.set_share].
  destruct (core.initBeacon bolt _) as [d' e'] eqn:Hi.
  apply initBeacon_fields in Hi as (_ & _ & _ & Hstore).
  intros [= _ <-]. exact Hstore.
Qed.

(** [LoadDrand] on a key store that holds everything. *)
Lemma LoadDrand_healthy (p : key.Pair) (s : key.Share) (dp : key.DistPublic)
    (g : key.Group) (c : config.Config) (bolt : beacon.Store) :
  (config.insecure c = true
   \/ (config.certPath c <> "" /\ config.keyPath c <> "")) ->
  exists d2,
    core.LoadDrand
      {| key.stored_pair := Some p; key.stored_share := Some s;
         key.stored_dist := Some dp; key.stored_group := Some g;
         key.store_fault := None |} c (bolt, None)
    = Returns (Some d2, None)
    /\ core.share d2 = Some s
    /\ core.pub d2 = Some dp
    /\ core.group d2 = Some g
    /\ core.priv d2 = p
    /\ core.isDKGDone d2 = true.
Proof.
  intros Hconf.
  assert (negb (config.insecure c)
          && (String.eqb (config.certPath c) ""
              || String.eqb (config.keyPath c) "") = false) as Hcheck.
  { destruct Hconf as [->|[Hc Hk]]; [done|].
    apply String.eqb_neq in Hc, Hk. rewrite Hc, Hk.
    by destruct (config.insecure c). }
  unfold core.LoadDrand, core.initDrand. rewrite Hcheck.
  eexists. split; [reflexivity|]. repeat split.
Qed.

(** X7. What [WaitDKG] saves is what [LoadDrand] needs.  On a key store
    without fault, which gives back what was saved, an instance whose
    DKG delivered the share [s] can be restored from its store: with the
    same configuration [LoadDrand] returns an instance that holds [s],
    the distributed key of [s] and the group. *)
Theorem WaitDKG_then_LoadDrand d (h : core.DkgHandler) (s : key.Share)
    (g : key.Group) (p : key.Pair)
    (bolt bolt' : beacon.Store) (e : option error) d1 :
  core.dkg d = Some h ->
  core.group d = Some g ->
  key.store_fault (core.store d) = None ->
  key.stored_pair (core.store d) = Some p ->
  (config.insecure (core.opts d) = true
   \/ (config.certPath (core.opts d) <> "" /\ config.keyPath (core.opts d) <> "")) ->
  core.WaitDKG (core.ShareReady s) (bolt, e) d = Returns (e, d1) ->
  exists d2,
    core.LoadDrand (core.store d1) (core.opts d) (bolt', None)
    = Returns (Some d2, None)
    /\ core.share d2 = Some s
    /\ core.pub d2 = Some (key.Share_Public s)
    /\ core.group d2 = Some g
    /\ core.priv d2 = p
    /\ core.isDKGDone d2 = true.
Proof.
  intros Hdkg Hg Hfault Hpair Hconf Hw.
  apply (WaitDKG_share_store d h s (bolt, e) e d1 Hdkg) in Hw.
  rewrite (saves_healthy _ s (core.group d) Hfault), Hg, Hpair in Hw.
  rewrite Hw.
  destruct (LoadDrand_healthy p s (key.Share_Public s) g (core.opts d) bolt'
              Hconf) as (d2 & Hload & H1 & H2 & H3 & H4 & H5).
  exists d2. rewrite Hload. done.
Qed.

(** X8. [runDkg] returns only on an instance whose flag is set, whose
    beacon handler and store are set, and whose key store gives back a
    distributed key; [BeaconLoop], which [runCmd] calls next, then does
    not panic. *)
Theorem runDkg_finished (w : main.Outside) (c : main.Context) d d' :
  main.runDkg w c d = main.Finished d' ->
  core.isDKGDone d' = true
  /\ (exists h, core.beacon d' = Some h)
  /\ core.beaconStore d' = Some (fst (main.boltStore w))
  /\ snd (key.LoadDistPublic (core.store d')) = None
  /\ exists d'', core.BeaconLoop d' = Returns d''.
Proof.
  unfold main.runDkg, core.StartDKG, core.WaitDKG, core.initBeacon.
  intros H.
  assert (core.isDKGDone d' = true
          /\ (exists h, core.beacon d' = Some h)
          /\ core.beaconStore d' = Some (fst (main.boltStore w))
          /\ snd (key.LoadDistPublic (core.store d')) = None)
    as (H1 & [h H2] & H3 & H4).
  { repeat case_match; simplify_eq; cbn in *;
      (split; [done|split; [eauto|split; [done|]]]);
      match goal with
      | Hl : key.LoadDistPublic _ = _ |- _ => cbn in Hl; by rewrite Hl
      end. }
  split; [done|]. split; [eauto|]. split; [done|]. split; [done|].
  unfold core.BeaconLoop. rewrite H3, H2.
  destruct (beacon.Last _) as [b [err|]]; [|eauto].
  destruct (is_ErrNoBeaconSaved err); eauto.
Qed.

End LifecycleFacts.

Section ConstructionFacts.
Context {K : Kyber} {SO : @key.ShareOps K} {E : @Ecies K}
        {BO : @beacon.HandlerOps K SO}.

Implicit Types d : core.Drand.

(** X9. An instance restored by [LoadDrand] serves at once and has no
    DKG handler: its flag is set, its beacon handler is built on the
    share and the group loaded from the key store, its store is the
    database opened; [Setup] on it is rejected, and [WaitDKG] and
    [StartDKG] on it dereference the nil handler. *)
Theorem LoadDrand_serving (s : key.Store) (c : config.Config)
    (bolt : beacon.Store * option error) d :
  core.LoadDrand s c bolt = Returns (Some d, None) ->
  core.isDKGDone d = true
  /\ key.LoadGroup s = (core.group d, None)
  /\ key.LoadShare s = (core.share d, None)
  /\ key.LoadDistPublic s = (core.pub d, None)
  /\ core.beacon d =
     Some (beacon.NewHandler (core.priv d) (core.share d) (core.group d))
  /\ core.beaconStore d = Some (fst bolt)
  /\ core.dkg d = None
  /\ (forall packet,
        core.Setup d packet =
        Returns (None, Some (errors_New "drand: dkg finished already"), d))
  /\ (forall r b,
        core.WaitDKG r b d = Panics "nil pointer dereference"
        /\ core.StartDKG r b d = Panics "nil pointer dereference").
Proof.
  unfold core.LoadDrand, core.initDrand, core.initBeacon. intros H.
  repeat case_match; simplify_eq; cbn.
  repeat split; done.
Qed.

(** X10. [initDrand] checks the configuration before it touches the key
    store: without the insecure option and with an empty certificate or
    key path it returns the configuration error whatever the store
    holds.  Otherwise an error of [LoadKeyPair] is returned as it is, and
    a key pair gives an instance with no DKG state, the flag not set,
    and a gateway started on the listen address of the configuration or,
    when none is set, on the address of the identity.  [NewDrand] returns
    that instance with the group and, when [dkg.NewHandler] fails, with
    the error as well. *)
Theorem initDrand_outcomes (s : key.Store) (c : config.Config) :
  (config.insecure c = false ->
   config.certPath c = "" \/ config.keyPath c = "" ->
   core.initDrand s c =
   Returns (None, Some (errors_New
     "config: need to set WithInsecure if no certificate and private key path given")))
  /\ (config.insecure c = true
      \/ (config.certPath c <> "" /\ config.keyPath c <> "") ->
      (forall e, snd (key.LoadKeyPair s) = Some e ->
         core.initDrand s c = Returns (None, Some e))
      /\ (forall p, key.LoadKeyPair s = (Some p, None) ->
            exists d,
              core.initDrand s c = Returns (Some d, None)
              /\ core.priv d = p /\ core.opts d = c /\ core.store d = s
              /\ core.isDKGDone d = false /\ core.dkg d = None
              /\ core.beacon d = None /\ core.beaconStore d = None
              /\ core.share d = None
              /\ core.trace d =
                 [core.EvGatewayStart
                    (if String.eqb (config.listenAddr c) ""
                     then key.Identity_Addr (key.Pair_Public p)
                     else config.listenAddr c)]
              /\ forall g nh, exists d',
                   core.NewDrand s g c nh = Returns (Some d', nh)
                   /\ core.group d' = Some g
                   /\ (nh = None -> exists h, core.dkg d' = Some h))).
Proof.
  unfold core.NewDrand, core.initDrand. split.
  - intros -> [->| ->]; cbn; [done|].
    by rewrite orb_true_r.
  - intros Hok.
    assert (negb (config.insecure c)
            && (String.eqb (config.certPath c) ""
                || String.eqb (config.keyPath c) "") = false) as ->.
    { destruct Hok as [->|[Hc Hk]]; [done|].
      apply String.eqb_neq in Hc, Hk. rewrite Hc, Hk.
      by destruct (config.insecure c). }
    split.
    + intros e He. destruct (key.LoadKeyPair s) as [p [e'|]]; cbn in He;
        simplify_eq. by destruct p.
    + intros p ->. eexists. split; [reflexivity|]. cbn.
      repeat split; try done.
      intros g nh. eexists. split; [reflexivity|]. cbn. split; [done|].
      intros ->. eauto.
Qed.

(** X11. [Stop] stops the gateway, and the beacon handler when there is
    one, and marks nothing: the flag, the handler and the store are
    untouched, so [Public] answers after [Stop] as before, [Setup] and
    [NewBeacon] are gated as before, and a second [Stop] stops the
    gateway again. *)
Theorem Stop_marks_nothing d :
  core.isDKGDone (core.Stop d) = core.isDKGDone d
  /\ core.beacon (core.Stop d) = core.beacon d
  /\ core.beaconStore (core.Stop d) = core.beaconStore d
  /\ core.dkg (core.Stop d) = core.dkg d
  /\ core.Public (core.Stop d) = core.Public d
  /\ core.trace (core.Stop d) =
     core.trace d ++ core.EvGatewayStop
       :: match core.beacon d with
          | Some _ => [core.EvBeaconStop]
          | None => []
          end
  /\ core.trace (core.Stop (core.Stop d)) =
     core.trace (core.Stop d) ++ core.EvGatewayStop
       :: match core.beacon d with
          | Some _ => [core.EvBeaconStop]
          | None => []
          end.
Proof.
  unfold core.Stop, core.Public. cbn.
  destruct (core.beacon d) eqn:Hb; cbn; rewrite ?Hb; cbn;
    rewrite <- ?app_assoc; repeat split; done.
Qed.

End ConstructionFacts.

(** * Further properties of the command line *)

Section CommandFacts.
Context {O : main.Os} {K : Kyber} {SO : @key.ShareOps K} {E : @Ecies K}
        {BO : @beacon.HandlerOps K SO}.

(** X12. [contextToConfig] panics when the flag "insecure" is given
    together with "tls-cert" or "tls-key", and when the flag "certs-dir"
    is given and the directory cannot be listed.  In every other case it
    reaches [core.NewConfig] and returns what that returns on these
    options, in this order: the listen address when the flag is not
    empty, the configuration folder, the database folder joined to it,
    the period, the insecure option or else the two TLS paths, and the
    trusted certificates when "certs-dir" is given. *)
Theorem contextToConfig_options (default : config.Config)
    (c : main.Context) :
  (main.Bool c "insecure" = true
   /\ (main.IsSet c "tls-cert" = true \/ main.IsSet c "tls-key" = true) ->
   exists m, main.contextToConfig default c = Panics m)
  /\ (main.IsSet c "certs-dir" = true
      /\ snd (main.fs_Files (main.String c "certs-dir")) <> None ->
      exists m, main.contextToConfig default c = Panics m)
  /\ (~ (main.Bool c "insecure" = true
         /\ (main.IsSet c "tls-cert" = true \/ main.IsSet c "tls-key" = true)) ->
      ~ (main.IsSet c "certs-dir" = true
         /\ snd (main.fs_Files (main.String c "certs-dir")) <> None) ->
      main.contextToConfig default c =
      Returns
        (config.NewConfig default
           ((if negb (String.eqb (main.String c "listen") "")
             then [config.WithListenAddress (main.String c "listen")]
             else [])
            ++ [config.WithConfigFolder (main.GlobalString c "config");
                config.WithDbFolder
                  (main.path_Join (main.GlobalString c "config")
                     (main.GlobalString c "db"));
                config.WithBeaconPeriod (main.Duration c "period")]
            ++ (if main.Bool c "insecure"
                then [config.WithInsecure]
                else [config.WithTLS (main.String c "tls-cert")
                        (main.String c "tls-key")])
            ++ (if main.IsSet c "certs-dir"
                then [config.WithTrustedCerts
                        (fst (main.fs_Files (main.String c "certs-dir")))]
                else [])))).
Proof.
  unfold main.contextToConfig.
  destruct (negb (String.eqb (main.String c "listen") ""));
    destruct (main.Bool c "insecure");
    destruct (main.IsSet c "tls-cert"); destruct (main.IsSet c "tls-key");
    destruct (main.IsSet c "certs-dir"); cbn;
    try destruct (main.fs_Files _) as [paths [e|]]; cbn;
    (split; [|split]);
    try (intros [? [?|?]]; try discriminate; eauto);
    try (intros [? ?]; try discriminate; try done; eauto);
    try (intros Hclash Hdir; try reflexivity;
         exfalso; (apply Hclash; split; auto) || (apply Hdir; split; auto)).
Qed.

(** The options of the folders, the period and the TLS material reach
    the configuration whatever else the command line holds. *)
Lemma contextToConfig_fields (default : config.Config) (c : main.Context)
    (conf : config.Config) :
  main.contextToConfig default c = Returns conf ->
  config.configFolder conf = main.GlobalString c "config"
  /\ config.beaconPeriod conf = main.Duration c "period"
  /\ (main.Bool c "insecure" = true -> config.insecure conf = true)
  /\ (main.Bool c "insecure" = false ->
        config.insecure conf = config.insecure default
        /\ config.certPath conf = main.String c "tls-cert"
        /\ config.keyPath conf = main.String c "tls-key").
Proof.
  unfold main.contextToConfig, config.NewConfig. intros H.
  repeat case_match; simplify_eq; cbn; repeat split; intros; done.
Qed.

(** X13. A command line without "insecure" that lacks the certificate or
    the key of the server never gets an instance: when the default
    configuration is not insecure, the configuration [contextToConfig]
    builds is refused by [initDrand], and the commands [beacon] and [run]
    exit on that error before any key is read. *)
Theorem missing_tls_material_exits (default : config.Config)
    (w : main.Outside) (c : main.Context) (conf : config.Config) :
  config.insecure default = false ->
  main.Bool c "insecure" = false ->
  main.String c "tls-cert" = "" \/ main.String c "tls-key" = "" ->
  main.contextToConfig default c = Returns conf ->
  let refused := errors_New
    "config: need to set WithInsecure if no certificate and private key path given" in
  (forall s, core.initDrand s conf = Returns (None, Some refused))
  /\ main.beaconCmd default w c = main.Fatal refused
  /\ (main.args c = [] -> main.runCmd default w c = main.Fatal refused).
Proof.
  intros Hdef Hins Htls Hconf refused.
  destruct (contextToConfig_fields default c conf Hconf)
    as (_ & _ & _ & Hsec).
  destruct (Hsec Hins) as (Hi & Hc & Hk). rewrite Hdef in Hi.
  assert (forall s, core.initDrand s conf = Returns (None, Some refused))
    as Hinit.
  { intros s. unfold core.initDrand. rewrite Hi, Hc, Hk.
    destruct Htls as [-> | ->]; cbn; [done|]. by rewrite orb_true_r. }
  split; [done|]. split.
  - unfold main.beaconCmd, core.LoadDrand. by rewrite Hconf, Hinit.
  - intros Hargs. unfold main.runCmd, core.LoadDrand.
    by rewrite Hconf, Hargs, Hinit.
Qed.

(** X14. [fetchPublicCmd] prints only what was verified: the response it
    prints passed the BLS verification under the key loaded from the file
    of the flag "public", and it was fetched from the address of the
    first argument, over TLS unless the flag "insecure" is given.  A
    response that fails the verification makes the command exit. *)
Theorem fetchPublicCmd_prints_verified (w : main.FetchOutside)
    (c : main.Context) (resp : option pb.PublicRandResponse) :
  main.fetchPublicCmd w c = main.Done resp ->
  exists first rest pub,
    main.args c = first :: rest
    /\ main.loadDistPublic w (main.String c "public") = (pub, None)
    /\ client.ec_Public
         (main.NewGrpcClientFromCert w
            (if main.IsSet c "tls-cert" then [main.String c "tls-cert"] else []))
         {| client.peer_Address := first;
            client.peer_IsTLS := negb (main.Bool c "insecure") |}
       = (resp, None)
    /\ bls_Verify (key.Key pub)
         (beacon.Message (pb.GetPrevious resp) (pb.GetRound resp))
         (pb.GetRandomness resp) = None.
Proof.
  unfold main.fetchPublicCmd, client.LastPublic, client.verify. intros H.
  destruct (main.args c) as [|first rest]; [discriminate|].
  destruct (main.loadDistPublic w _) as [pub [e|]] eqn:Hpub; [discriminate|].
  cbn in H.
  destruct (client.ec_Public _ _) as [r [e|]] eqn:Hfetch; [discriminate|].
  destruct (bls_Verify _ _ _) eqn:Hver; [discriminate|].
  destruct (main.jsonError w r); [discriminate|].
  injection H as <-. exists first, rest, pub. done.
Qed.

End CommandFacts.

Section FileCommandFacts.
Context {O : main.Os} {K : Kyber} {SO : @key.ShareOps K} {E : @Ecies K}
        {BO : @beacon.HandlerOps K SO}.

Lemma readIdentities_inl (w : main.GroupOutside) (files : list string)
    (publics : list key.Identity) :
  main.readIdentities w files = inl publics ->
  publics = map (fun f => fst (main.loadIdentity w f)) files
  /\ Forall (fun f => snd (main.loadIdentity w f) = None) files.
Proof.
  revert publics. induction files as [|f files IH]; intros publics; cbn.
  - intros [= <-]. split; [done|constructor].
  - destruct (main.loadIdentity w f) as [pub [e|]] eqn:Hf; [discriminate|].
    destruct (main.readIdentities w files) as [l|e]; [|discriminate].
    intros [= <-]. destruct (IH l eq_refl) as [-> Hall].
    split; [done|]. constructor; [by rewrite Hf|done].
Qed.

(** X15. [groupCmd] refuses fewer than three identity files before it
    reads any.  When it writes a group, every file was read without
    error, the identities are handed to [key.NewGroup] in the order of
    the arguments, the path is the flag "out" when it is not empty and
    [group.toml] in the working directory otherwise, and the threshold is
    the value of the flag "threshold" whenever the flag is given, whatever
    that value is: a threshold below the default one is only warned
    about. *)
Theorem groupCmd_result (w : main.GroupOutside) (c : main.Context) :
  (main.NArg c < 3 -> exists msg, main.groupCmd w c = main.Exits msg None)
  /\ forall path publics threshold,
       main.groupCmd w c = main.Done (path, publics, threshold) ->
       (3 <= length (main.args c))%nat
       /\ publics = map (fun f => fst (main.loadIdentity w f)) (main.args c)
       /\ Forall (fun f => snd (main.loadIdentity w f) = None) (main.args c)
       /\ threshold =
          (if main.IsSet c "threshold" then main.Int c "threshold"
           else main.DefaultThreshold w (main.NArg c))
       /\ path =
          (if String.eqb (main.String c "out") ""
           then main.path_Join (main.Pwd w) main.gname
           else main.String c "out")
       /\ main.saveGroup w path publics threshold = None.
Proof.
  unfold main.groupCmd, main.NArg. split.
  - intros Hn. destruct (main.args c) as [|a l] eqn:Ha; [eauto|].
    apply Z.ltb_lt in Hn. rewrite Hn. eauto.
  - intros path publics threshold.
    destruct (main.args c) as [|a l] eqn:Ha; [discriminate|].
    destruct (Z.of_nat (length (a :: l)) <? 3) eqn:Hn; [discriminate|].
    apply Z.ltb_ge in Hn.
    destruct (main.readIdentities w (a :: l)) as [ids|e] eqn:Hids;
      [|discriminate].
    destruct (main.saveGroup w _ ids _) eqn:Hsave; [discriminate|].
    intros [= <- <- <-].
    destruct (readIdentities_inl w _ _ Hids) as [Hmap Hall].
    split; [lia|]. split; [done|]. split; [done|]. split; [done|].
    split; [by destruct (String.eqb _ "")|].
    by rewrite <- Hsave.
Qed.

(** X16. [keygenCmd] never overwrites a key pair: when the key store of
    the configuration folder loads one, the command returns with the
    store as it was.  When it writes a key pair, none could be loaded
    before, and the pair written is the one generated for the address of
    the first argument, with the TLS indication unless the flag
    "insecure" is given. *)
Theorem keygenCmd_keeps_existing (default : config.Config)
    (w : main.KeygenOutside) (c : main.Context)
    (first : string) (rest : list string) (conf : config.Config) :
  main.args c = first :: rest ->
  main.contextToConfig default c = Returns conf ->
  let fs := main.keyStoreAt w (config.ConfigFolder conf) in
  (snd (key.LoadKeyPair fs) = None ->
     main.keygenCmd default w c = main.Done (fs, None))
  /\ forall st' path,
       main.keygenCmd default w c = main.Done (st', Some path) ->
       snd (key.LoadKeyPair fs) <> None
       /\ key.stored_pair st' =
          Some (if main.Bool c "insecure"
                then main.NewKeyPair w first
                else main.NewTLSKeyPair w first)
       /\ key.stored_share st' = key.stored_share fs
       /\ key.stored_dist st' = key.stored_dist fs
       /\ key.stored_group st' = key.stored_group fs.
Proof.
  intros Hargs Hconf fs. unfold main.keygenCmd. rewrite Hargs, Hconf.
  fold fs. split.
  - destruct (key.LoadKeyPair fs) as [p [e|]]; cbn; [discriminate|done].
  - intros st' path.
    destruct (key.LoadKeyPair fs) as [p [e|]]; cbn; [|discriminate].
    unfold key.SaveKeyPair.
    destruct (key.store_fault fs); [discriminate|].
    destruct (main.filepath_Abs w _) as [ap [e'|]]; [discriminate|].
    destruct (main.tomlError w _); [discriminate|].
    intros [= <- <-]. cbn. repeat split; done.
Qed.

End FileCommandFacts.

(** ** Concrete runs of the further properties *)

Lemma fresh_reachable : core.reachable toy.fresh.
Proof.
  apply (core.reachable_new toy.keys toy.the_group toy.conf). reflexivity.
Qed.

Lemma serving_reachable : core.reachable toy.serving.
Proof.
  apply (core.reachable_call toy.fresh
           (core.CallWaitDKG (core.ShareReady toy.share4) (toy.db, None))).
  - exact fresh_reachable.
  - reflexivity.
Qed.

Lemma run_reachable {K : Kyber} {SO : @key.ShareOps K} {E : @Ecies K}
    {BO : @beacon.HandlerOps K SO} (cs : list core.Call) (d d' : core.Drand) :
  core.reachable d -> core.run cs d = Returns d' -> core.reachable d'.
Proof.
  revert d. induction cs as [|c cs IH]; intros d Hr; cbn.
  - by intros [= <-].
  - destruct (core.call c d) as [d1|] eqn:Hc; [|discriminate].
    apply IH. by apply (core.reachable_call d c).
Qed.

(** A call that returns, returns what the destructor reads off it. *)
Lemma returned_default {A : Type} (o : outcome A) (x : A) :
  match o with Returns _ => True | Panics _ => False end ->
  o = Returns (match o with Returns a => a | Panics _ => x end).
Proof. by destruct o. Qed.

Lemma driven_run : core.run toy.history toy.fresh = Returns toy.driven.
Proof. apply returned_default. exact I. Qed.

Lemma driven_reachable : core.reachable toy.driven.
Proof.
  exact (run_reachable toy.history toy.fresh toy.driven
           fresh_reachable driven_run).
Qed.

Lemma run_unchanged_witness :
  core.dkg toy.driven = core.dkg toy.fresh
  /\ core.trace toy.fresh `prefix_of` core.trace toy.driven.
Proof.
  destruct (run_unchanged toy.history toy.fresh toy.driven driven_run)
    as (_ & _ & _ & _ & Hdkg & _ & Htrace).
  split; assumption.
Defined.

Lemma Setup_rejected_after_share_witness :
  core.Setup toy.stuck [x01] =
  Returns (None, Some (errors_New "drand: dkg finished already"), toy.stuck).
Proof.
  exact (Setup_rejected_after_share toy.fresh toy.share4
           (toy.empty_db, Some toy.bolt_timeout) (Some toy.bolt_timeout)
           toy.stuck [] toy.stuck [x01] eq_refl eq_refl).
Defined.

Lemma no_store_before_DKG_witness :
  core.Public toy.fresh = Panics "nil pointer dereference".
Proof.
  exact (proj1 (no_store_before_DKG toy.fresh (toy.request 0 [])
                  fresh_reachable eq_refl)).
Defined.

Lemma panics_iff_no_handler_witness :
  exists m, core.Public toy.stuck = Panics m.
Proof.
  exact (proj1 (proj1 (panics_iff_no_handler toy.stuck stuck_reachable))
           eq_refl).
Defined.

Lemma WaitDKG_drops_save_errors_witness :
  main.runDkg toy.outside toy.command toy.unsaved
  = main.Fatal (ErrForeign "fs" "read-only file system").
Proof.
  refine (proj2 (WaitDKG_drops_save_errors toy.unsaved _ toy.share4 toy.db
                   (ErrForeign "fs" "read-only file system")
                   eq_refl eq_refl)
            toy.outside toy.command eq_refl eq_refl).
Defined.

Lemma WaitDKG_then_LoadDrand_witness :
  exists d2,
    core.LoadDrand (core.store toy.serving) toy.conf (toy.db, None)
    = Returns (Some d2, None)
    /\ core.share d2 = Some toy.share4
    /\ core.pub d2 = Some toy.dist.
Proof.
  destruct (WaitDKG_then_LoadDrand toy.fresh _ toy.share4 toy.the_group
              toy.pair toy.db toy.db None toy.serving
              eq_refl eq_refl eq_refl eq_refl (or_introl eq_refl) eq_refl)
    as (d2 & Hload & Hs & Hp & _).
  exists d2. split; [exact Hload|]. split; assumption.
Defined.

Lemma finished_default {K : Kyber} {SO : @key.ShareOps K} {E : @Ecies K}
    {BO : @beacon.HandlerOps K SO} (o : main.ended) (x : core.Drand) :
  match o with main.Finished _ => True | _ => False end ->
  o = main.Finished (match o with main.Finished d => d | _ => x end).
Proof. by destruct o. Qed.

Lemma loaded_default {K : Kyber} {SO : @key.ShareOps K} {E : @Ecies K}
    {BO : @beacon.HandlerOps K SO}
    (o : outcome (option core.Drand * option error)) (x : core.Drand) :
  match o with Returns (Some _, None) => True | _ => False end ->
  o = Returns (Some (match o with Returns (Some d, _) => d | _ => x end),
               None).
Proof. by destruct o as [[[d|] [e|]]|]. Qed.

Lemma runDkg_finished_witness :
  exists d'', core.BeaconLoop toy.ran = Returns d''.
Proof.
  refine (proj2 (proj2 (proj2 (proj2
           (runDkg_finished toy.outside toy.command toy.fresh toy.ran _))))).
  apply finished_default. exact I.
Defined.

Lemma LoadDrand_serving_witness :
  core.dkg toy.restored = None
  /\ core.WaitDKG (core.ShareReady toy.share4) (toy.db, None) toy.restored
     = Panics "nil pointer dereference".
Proof.
  assert (core.LoadDrand toy.full_keys toy.conf (toy.db, None)
          = Returns (Some toy.restored, None)) as Hload
    by (apply loaded_default; exact I).
  destruct (LoadDrand_serving toy.full_keys toy.conf (toy.db, None)
              toy.restored Hload)
    as (_ & _ & _ & _ & _ & _ & Hdkg & _ & Hwait).
  split; [exact Hdkg|].
  exact (proj1 (Hwait (core.ShareReady toy.share4) (toy.db, None))).
Defined.

Lemma initDrand_outcomes_witness :
  core.initDrand toy.faulty_keys toy.tls_default =
  Returns (None, Some (errors_New
    "config: need to set WithInsecure if no certificate and private key path given")).
Proof.
  exact (proj1 (initDrand_outcomes toy.faulty_keys toy.tls_default)
           eq_refl (or_introl eq_refl)).
Defined.

Lemma missing_tls_material_exits_witness :
  main.beaconCmd toy.tls_default toy.outside toy.tls_command =
  main.Fatal (errors_New
    "config: need to set WithInsecure if no certificate and private key path given").
Proof.
  refine (proj1 (proj2 (missing_tls_material_exits toy.tls_default toy.outside
                          toy.tls_command _ eq_refl eq_refl
                          (or_intror eq_refl) eq_refl))).
Defined.

Lemma fetchPublicCmd_prints_verified_witness :
  bls_Verify (key.Key toy.dist)
    (beacon.Message (pb.Previous toy.genuine) (pb.Round toy.genuine))
    (pb.Randomness toy.genuine) = None.
Proof.
  destruct (fetchPublicCmd_prints_verified toy.fetch_outside toy.fetch_command
              (Some toy.genuine) eq_refl)
    as (first & rest & pub & _ & Hpub & _ & Hver).
  injection Hpub as <-. exact Hver.
Defined.

Lemma group_written :
  main.groupCmd toy.group_outside toy.group_command =
  main.Done ("/home/group.toml",
             [toy.member "a.public"; toy.member "bb.public";
              toy.member "ccc.public"], 1).
Proof. reflexivity. Qed.

Lemma groupCmd_result_witness :
  (3 <= length (main.args toy.group_command))%nat
  /\ (1 : Z) = main.Int toy.group_command "threshold".
Proof.
  destruct (proj2 (groupCmd_result toy.group_outside toy.group_command)
              _ _ _ group_written)
    as (Hlen & _ & _ & Ht & _).
  split; [exact Hlen|exact Ht].
Defined.

Lemma keygenCmd_keeps_existing_witness :
  main.keygenCmd toy.conf toy.keygen_outside toy.keygen_command
  = main.Done (toy.keys, None).
Proof.
  refine (proj1 (keygenCmd_keeps_existing toy.conf toy.keygen_outside
                   toy.keygen_command "drand.example:443" [] _
                   eq_refl eq_refl) eq_refl).
Defined.

Lemma LastPublic_verified_witness :
  bls_Verify (key.Key toy.dist)
    (beacon.Message (pb.Previous toy.genuine) (pb.Round toy.genuine))
    (pb.Randomness toy.genuine) = None.
Proof.
  exact (LastPublic_verified (toy.connected toy.genuine toy.serving)
           "127.0.0.1:8000" toy.dist true (Some toy.genuine) eq_refl).
Defined.

Lemma contextToConfig_options_witness :
  exists m, main.contextToConfig toy.conf toy.clash_command = Panics m.
Proof.
  exact (proj1 (contextToConfig_options toy.conf toy.clash_command)
           (conj eq_refl (or_introl eq_refl))).
Defined.
